(** * PurpleAir sensor status checker: a shallow embedding of streamlit_app.py

    The program polls the PurpleAir API once per configured sensor, labels
    each sensor Online / Low Confidence / Offline, and shows the labelled
    records in a table sorted by severity and on a map.

    Conventions of the embedding:
    - a Python [dict] with string keys is a [gmap string value];
    - Python strings are the byte strings of their UTF-8 encoding (the
      encoding of the source file), so [str.startswith] is [String.prefix];
    - Python floats are idealised as exact rationals ([Q]);
    - a call either returns or raises: [result];
    - what the outside world answers (the HTTP response, the wall clock,
      the secrets store) is an explicit argument: [world], [environment];
    - [st.session_state] is the record [session_state], threaded through
      the two callbacks. *)

From Stdlib Require Import ZArith QArith Qround Lqa String Ascii List.
From Stdlib Require Import DecimalString DecimalPos DecimalZ.
From Stdlib Require Import Sorting.Sorted Sorting.Permutation.
From stdpp Require Import base option list gmap strings.

Local Open Scope Z_scope.
Local Open Scope string_scope.

(** ** Python values and exceptions *)

(** The values that occur in the records of the program: JSON scalars of
    the API response, and the list of four integers of a colour.  [VList]
    also stands for any other container, on which arithmetic raises. *)
Inductive value : Type :=
| VNone
| VBool (b : bool)
| VInt (z : Z)
| VFloat (q : Q)
| VStr (s : string)
| VList (l : list Z).

Inductive exn : Type :=
| TypeError
| KeyError (k : string)
| AttributeError.

Inductive result (A : Type) : Type :=
| Returned (a : A)
| Raised (e : exn).
Arguments Returned {A} a.
Arguments Raised {A} e.

#[global] Instance result_ret : MRet result := fun A a => Returned a.

#[global] Instance result_bind : MBind result := fun A B k r =>
  match r with
  | Returned a => k a
  | Raised e => Raised e
  end.

(** [[f(x) for x in l]]: the first exception ends the comprehension. *)
Fixpoint comprehension {A B : Type} (f : A -> result B) (l : list A)
  : result (list B) :=
  match l with
  | [] => Returned []
  | x :: l' =>
      y ← f x;
      ys ← comprehension f l';
      Returned (y :: ys)
  end.

Abbreviation record := (gmap string value).

(** The number a value denotes in arithmetic and comparisons, if any
    ([bool] is a subclass of [int]). *)
Definition as_number (v : value) : option Q :=
  match v with
  | VInt z => Some (inject_Z z)
  | VFloat q => Some q
  | VBool b => Some (if b then 1%Q else 0%Q)
  | VNone | VStr _ | VList _ => None
  end.

(** [str(z)] for an [int]. *)
Definition str_int (z : Z) : string := NilZero.string_of_int (Z.to_int z).

Section Formatting.

(** [repr] of a float is the interpreter's; the development is
    parametric in it. *)
Variable float_repr : Q -> string.

Definition str_list (l : list Z) : string :=
  "[" +:+ String.concat ", " (map str_int l) +:+ "]".

(** [f'{v}'] *)
Definition format (v : value) : string :=
  match v with
  | VNone => "None"
  | VBool true => "True"
  | VBool false => "False"
  | VInt z => str_int z
  | VFloat q => float_repr q
  | VStr s => s
  | VList l => str_list l
  end.

End Formatting.

(** ** Sensor and API configuration *)

Definition SENSOR_INDICES : list Z :=
  [ 270898; 279253; 279251; 133435; 155503; 155501; 155521; 155533;
    155537; 155567; 155569; 155591; 155595; 155597; 155601; 155607;
    155605; 155613; 155629; 155639; 155673; 155679; 155691; 162991;
    163031; 163169 ].

Definition API_BASE_URL : string := "https://api.purpleair.com/v1/sensors/".

Definition FIELDS_TO_REQUEST : string :=
  "name,model,hardware,last_seen,confidence,rssi,uptime," +:+
  "latitude,longitude,pm2.5,pm2.5_60minute,temperature_a".

(** ** Status thresholds and colours *)

Definition STALE_THRESHOLD_SECONDS : Z := 600.
Definition LOW_CONFIDENCE_THRESHOLD : Z := 75.

Definition STATUS_COLORS : gmap string (list Z) :=
  {[ "online" := [0; 255; 0; 160];
     "low_confidence" := [255; 255; 0; 160];
     "offline" := [255; 0; 0; 160] ]}.

(** [STATUS_COLORS[k]] *)
Definition status_color (k : string) : result value :=
  match STATUS_COLORS !! k with
  | Some c => Returned (VList c)
  | None => Raised (KeyError k)
  end.

(** ** The outside world of one call of [get_sensor_data] *)

(** What [requests.get] followed by [raise_for_status] and [json] comes to
    inside the [try] block. *)
Inductive response : Type :=
| Ok (sensor : option record)
    (** status below 400 and a JSON object as body; [sensor] is its
        ['sensor'] entry, [None] when the body has no such key *)
| HTTPError (code : Z)
    (** [raise_for_status] raises [HTTPError] for this status code *)
| RequestException.
    (** any other exception of [requests]: no usable response *)

Record world : Type := {
  requests_get : string -> string -> response;  (* url, X-API-Key header *)
  utc_now : Q                                   (* datetime.now(utc).timestamp() *)
}.

(** [d.get(k, default)] *)
Definition dict_get (d : record) (k : string) (default : value) : value :=
  match d !! k with
  | Some v => v
  | None => default
  end.

(** [x - v] for a float [x]: defined on numbers, [TypeError] otherwise. *)
Definition float_sub (x : Q) (v : value) : result Q :=
  match as_number v with
  | Some q => Returned (x - q)%Q
  | None => Raised TypeError
  end.

Definition Qlt_bool (x y : Q) : bool := negb (Qle_bool y x).

(** [v < n] for an integer constant [n]. *)
Definition less_than (v : value) (n : Z) : result bool :=
  match as_number v with
  | Some q => Returned (Qlt_bool q (inject_Z n))
  | None => Raised TypeError
  end.

(** [int(x // 3600)] for a float [x] *)
Definition whole_hours (x : Q) : Z := Qfloor (x / 3600).

(** ** Fetching one sensor *)

(** [f"{API_BASE_URL}{sensor_index}?fields={FIELDS_TO_REQUEST}"] *)
Definition request_url (sensor_index : Z) : string :=
  API_BASE_URL +:+ str_int sensor_index +:+ "?fields=" +:+ FIELDS_TO_REQUEST.

Section Fetch.

Variable float_repr : Q -> string.

(** Fetch a single sensor's data and assign status and colour.  The
    [except] clauses catch the exceptions of [requests] only; a
    [TypeError] of the classification propagates to the caller. *)
Definition get_sensor_data (w : world) (api_key : string) (sensor_index : Z)
  : result record :=
  let url := request_url sensor_index in
  match requests_get w url api_key with
  | Ok sensor =>
      let data := default ∅ sensor in
      let data := <["sensor_index" := VInt sensor_index]> data in
      let last_seen := dict_get data "last_seen" (VInt 0) in
      age_sec ← float_sub (utc_now w) last_seen;
      let conf := dict_get data "confidence" (VInt 0) in
      if Qlt_bool (inject_Z STALE_THRESHOLD_SECONDS) age_sec then
        let hrs := whole_hours age_sec in
        let data :=
          <["status" := VStr ("❌ Offline (" +:+ str_int hrs +:+ " hr ago)")]> data in
        color ← status_color "offline";
        Returned (<["color" := color]> data)
      else
        low ← less_than conf LOW_CONFIDENCE_THRESHOLD;
        if (low : bool) then
          let data :=
            <["status" :=
                VStr ("⚠️ Low Confidence (" +:+ format float_repr conf +:+ "%)")]> data in
          color ← status_color "low_confidence";
          Returned (<["color" := color]> data)
        else
          let data := <["status" := VStr "✅ Online"]> data in
          color ← status_color "online";
          Returned (<["color" := color]> data)
  | HTTPError code =>
      let msg := "❌ HTTP " +:+ str_int code in
      let msg := if (code =? 403)%Z then msg +:+ " (Invalid API Key?)" else msg in
      let msg := if (code =? 404)%Z then msg +:+ " (Not Found)" else msg in
      color ← status_color "offline";
      Returned {[ "sensor_index" := VInt sensor_index;
                  "status" := VStr msg;
                  "name" := VStr "N/A";
                  "color" := color ]}
  | RequestException =>
      color ← status_color "offline";
      Returned {[ "sensor_index" := VInt sensor_index;
                  "status" := VStr "❌ Request Error";
                  "name" := VStr "N/A";
                  "color" := color ]}
  end.

End Fetch.

(** ** Data frames *)

(** A [DataFrame] built from a list of dicts has one row per dict, in
    order.  Its columns are the keys that occur in some dict, and the cell
    of a row whose dict lacks the key is NaN; so a row is kept as its dict,
    and a cell is missing ([isna]) when the key is absent or maps to
    [None]. *)
Abbreviation DataFrame := (list record).

Definition pd_DataFrame (records : list record) : DataFrame := records.

Definition columns (df : DataFrame) : gset string := ⋃ (dom <$> df).

(** [df.empty]: no row or no column. *)
Definition df_empty (df : DataFrame) : bool :=
  bool_decide (df = []) || bool_decide (columns df = ∅).

Definition isna (cell : option value) : bool :=
  match cell with
  | None | Some VNone => true
  | Some _ => false
  end.

Definition notna (cell : option value) : bool := negb (isna cell).

(** [df.dropna(subset=...)]: a label of [subset] that is no column raises
    [KeyError]; otherwise the rows with a missing cell under one of the
    labels are dropped. *)
Definition dropna (subset : list string) (df : DataFrame) : result DataFrame :=
  match filter (fun c => c ∉ columns df) subset with
  | [] => Returned (filter (fun r => forallb (fun c => notna (r !! c)) subset) df)
  | c :: _ => Raised (KeyError c)
  end.

(** [df[c]] *)
Definition column (c : string) (df : DataFrame) : result (list (option value)) :=
  if decide (c ∈ columns df) then Returned ((fun r => r !! c) <$> df)
  else Raised (KeyError c).

(** [df[c] = series], in place *)
Definition set_column (c : string) (series : list value) (df : DataFrame)
  : DataFrame :=
  zip_with (fun r v => <[c := v]> r) df series.

(** [df.drop(columns=c)] *)
Definition drop_column (c : string) (df : DataFrame) : result DataFrame :=
  if decide (c ∈ columns df) then Returned (delete c <$> df)
  else Raised (KeyError c).

(** The sort key of a row under an integer column; a missing cell sorts
    last. *)
Definition sort_key (c : string) (r : record) : option Z :=
  match r !! c with
  | Some (VInt z) => Some z
  | _ => None
  end.

Definition key_le (k1 k2 : option Z) : bool :=
  match k1, k2 with
  | Some a, Some b => (a <=? b)%Z
  | _, None => true
  | None, Some _ => false
  end.

Fixpoint insert_sorted (c : string) (r : record) (l : DataFrame) : DataFrame :=
  match l with
  | [] => [r]
  | r' :: l' =>
      if key_le (sort_key c r) (sort_key c r') then r :: r' :: l'
      else r' :: insert_sorted c r l'
  end.


(** [df.sort_values(c)] for an integer column [c], ascending.  pandas
    sorts with an unstable algorithm by default: of the result only that it
    is a rearrangement of the rows in ascending key order is used below. *)
Definition sort_values (c : string) (df : DataFrame) : DataFrame :=
  foldr (insert_sorted c) [] df.

(** ** Session state *)

Record ViewState : Type := {
  latitude : Q;
  longitude : Q;
  zoom : Z;
  pitch : Z
}.

Definition DEFAULT_VIEW : ViewState :=
  {| latitude := 37.9577; longitude := -121.2908; zoom := 10; pitch := 0 |}.

Record session_state : Type := {
  df : DataFrame;
  df_map : DataFrame;
  view_state : ViewState
}.

(** The state of a new session, after the three [if ... not in
    st.session_state] lines. *)
Definition initial_session_state : session_state :=
  {| df := pd_DataFrame []; df_map := pd_DataFrame []; view_state := DEFAULT_VIEW |}.

(** What a refresh sees of the outside: the secrets store, and for each
    sensor index the world at the time of the call for that sensor. *)
Record environment : Type := {
  secrets : gmap string string;
  world_at : Z -> world
}.

(** A callback runs on the session state; it leaves a state behind also
    when it raises. *)
Definition callback (A : Type) : Type := session_state -> session_state * result A.

Section Callbacks.

Variable float_repr : Q -> string.

(** Fetch all sensor data and store in session state. *)
Definition do_refresh (env : environment) : callback unit := fun st =>
  match secrets env !! "textkey" with
  | None => (st, Raised (KeyError "textkey"))
  | Some api_key =>
      match comprehension
              (fun idx => get_sensor_data float_repr (world_at env idx) api_key idx)
              SENSOR_INDICES with
      | Raised e => (st, Raised e)
      | Returned records =>
          let df' := pd_DataFrame records in
          let st := {| df := df'; df_map := df_map st; view_state := view_state st |} in
          match dropna ["latitude"; "longitude"] df' with
          | Raised e => (st, Raised e)
          | Returned m =>
              ({| df := df st; df_map := m; view_state := view_state st |},
               Returned tt)
          end
      end
  end.

End Callbacks.

(** Return map to default camera. *)
Definition reset_view : callback unit := fun st =>
  ({| df := df st; df_map := df_map st; view_state := DEFAULT_VIEW |}, Returned tt).

(** ** The table *)

Definition status_priority (s : string) : Z :=
  if String.prefix "❌" s then 0
  else if String.prefix "⚠️" s then 1
  else if String.prefix "✅" s then 2
  else 3.

(** The lambda of [minutes_since_seen]. *)
Definition minutes_since (now_ts : Q) (x : option value) : result value :=
  if notna x then
    age ← float_sub now_ts (default VNone x);
    Returned (VFloat (age / 60))
  else Returned VNone.

(** [status_priority] applied to a cell: only a string has [startswith]. *)
Definition status_priority_cell (x : option value) : result value :=
  match x with
  | Some (VStr s) => Returned (VInt (status_priority s))
  | _ => Raised AttributeError
  end.

(** The table part of the script: the two derived columns are added to
    the frame of the session state in place, the sorted frame is a new
    one.  It yields the frame handed to [st.dataframe] (before renaming and
    ordering the columns), or nothing when there is no data yet. *)
Definition display_table (now_ts : Q) : callback (option DataFrame) := fun st =>
  if df_empty (df st) then (st, Returned None)
  else
    match column "last_seen" (df st) ≫= comprehension (minutes_since now_ts) with
    | Raised e => (st, Raised e)
    | Returned minutes =>
        let st :=
          {| df := set_column "minutes_since_seen" minutes (df st);
             df_map := df_map st; view_state := view_state st |} in
        match column "status" (df st) ≫= comprehension status_priority_cell with
        | Raised e => (st, Raised e)
        | Returned priorities =>
            let st :=
              {| df := set_column "__priority" priorities (df st);
                 df_map := df_map st; view_state := view_state st |} in
            (st, sorted ← drop_column "__priority" (sort_values "__priority" (df st));
                 Returned (Some sorted))
        end
    end.

(** ** Reading records *)

(** The three health categories, and the category the table's own
    recogniser [status_priority] puts a status label in. *)
Inductive health : Type := Offline | LowConfidence | Online.

Definition health_of_status (s : string) : option health :=
  match status_priority s with
  | 0 => Some Offline
  | 1 => Some LowConfidence
  | 2 => Some Online
  | _ => None
  end.

(** The key of a category in [STATUS_COLORS]. *)
Definition health_key (h : health) : string :=
  match h with
  | Offline => "offline"
  | LowConfidence => "low_confidence"
  | Online => "online"
  end.

Definition status_of (r : record) : option string :=
  match r !! "status" with
  | Some (VStr s) => Some s
  | _ => None
  end.

Definition color_of (r : record) : option (list Z) :=
  match r !! "color" with
  | Some (VList c) => Some c
  | _ => None
  end.

Definition has_coordinates (r : record) : bool :=
  notna (r !! "latitude") && notna (r !! "longitude").

(** [sub in s] *)
Definition contains (sub s : string) : bool :=
  match String.index 0 sub s with
  | Some _ => true
  | None => false
  end.

(** The colour [STATUS_COLORS] holds for the category of a label. *)
Definition color_for_status (s : string) : option (list Z) :=
  h ← health_of_status s;
  STATUS_COLORS !! health_key h.

(** What a call decided: label and colour of the record it returned. *)
Definition verdict (res : result record) : result (option string * option (list Z)) :=
  r ← res;
  Returned (status_of r, color_of r).

(** [res] is a record of category [h], in the colour of [h]. *)
Definition classified (res : result record) (h : health) : Prop :=
  exists r s,
    res = Returned r /\ status_of r = Some s /\ health_of_status s = Some h /\
    color_of r = STATUS_COLORS !! health_key h.

(** The decision rule of [get_sensor_data] by itself, as a function of
    the clock reading and of the two fields after defaulting: label and
    colour.  [fetched_classify] below shows that [get_sensor_data] computes
    it. *)
Definition classify (float_repr : Q -> string) (now : Q) (last_seen conf : value)
  : result (string * list Z) :=
  age_sec ← float_sub now last_seen;
  if Qlt_bool 600 age_sec then
    Returned ("❌ Offline (" +:+ str_int (whole_hours age_sec) +:+ " hr ago)",
              [255; 0; 0; 160])
  else
    low ← less_than conf 75;
    if (low : bool) then
      Returned ("⚠️ Low Confidence (" +:+ format float_repr conf +:+ "%)",
                [255; 255; 0; 160])
    else Returned ("✅ Online", [0; 255; 0; 160]).

(** The session states that can arise: a new session, then any sequence
    of the two callbacks and of script runs drawing the table. *)
Inductive reachable (float_repr : Q -> string) : session_state -> Prop :=
| reach_initial : reachable float_repr initial_session_state
| reach_refresh env st :
    reachable float_repr st -> reachable float_repr (do_refresh float_repr env st).1
| reach_reset st :
    reachable float_repr st -> reachable float_repr (reset_view st).1
| reach_display now_ts st :
    reachable float_repr st -> reachable float_repr (display_table now_ts st).1.

(** The record both [except] clauses build, for a status label. *)
Definition placeholder (sensor_index : Z) (status : string) : record :=
  {[ "sensor_index" := VInt sensor_index;
     "status" := VStr status;
     "name" := VStr "N/A";
     "color" := VList [255; 0; 0; 160] ]}.

Fixpoint has_char (c : ascii) (s : string) : bool :=
  match s with
  | EmptyString => false
  | String a s' => Ascii.eqb a c || has_char c s'
  end.

(** A row as [get_sensor_data] labels it: the index of a configured
    sensor, a status label, and the colour of the label's category. *)
Definition labelled_row (r : record) : Prop :=
  exists idx s c,
    r !! "sensor_index" = Some (VInt idx) /\ idx ∈ SENSOR_INDICES /\
    r !! "status" = Some (VStr s) /\ r !! "color" = Some (VList c) /\
    color_for_status s = Some c.

(** ** Test doubles *)

(** A world that answers every request with [resp] at clock reading [now]. *)
Definition world_of (resp : response) (now : Q) : world :=
  {| requests_get := fun _ _ => resp; utc_now := now |}.

(** A sensor object with the two classified fields. *)
Definition sensor_with (last_seen conf : Z) : record :=
  {[ "last_seen" := VInt last_seen; "confidence" := VInt conf ]}.

(** An environment for a refresh: the sensor 270898 reports both
    coordinates, 279253 a latitude only, 279251 an empty sensor object;
    every other request fails with HTTP 500. *)
Definition demo_environment : environment :=
  {| secrets := {[ "textkey" := "key" ]};
     world_at := fun idx =>
       if (idx =? 270898)%Z then
         world_of (Ok (Some (<["latitude" := VFloat 37.95]>
                               (<["longitude" := VFloat (-121.29)]>
                                  (sensor_with 1700000000 50))))) 1700000100
       else if (idx =? 279253)%Z then
         world_of (Ok (Some (<["latitude" := VFloat 37.96]>
                               (sensor_with 1700000000 90)))) 1700000101
       else if (idx =? 279251)%Z then world_of (Ok (Some ∅)) 1700000102
       else world_of (HTTPError 500) 1700000103 |}.

Definition plain_repr : Q -> string := fun _ => "".

(** The records of a refresh in [demo_environment] (none when a call
    raises). *)
Definition demo_records (float_repr : Q -> string) : list record :=
  match comprehension
          (fun idx => get_sensor_data float_repr (world_at demo_environment idx) "key" idx)
          SENSOR_INDICES with
  | Returned records => records
  | Raised _ => []
  end.

(** An environment in which no request gets a response. *)
Definition unreachable_environment : environment :=
  {| secrets := {[ "textkey" := "key" ]};
     world_at := fun _ => world_of RequestException 1700000000 |}.

(** An environment in which every sensor reports, without coordinates. *)
Definition inland_environment : environment :=
  {| secrets := {[ "textkey" := "key" ]};
     world_at := fun _ => world_of (Ok (Some (sensor_with 1700000300 90))) 1700000400 |}.

Definition inland_records (float_repr : Q -> string) : list record :=
  match comprehension
          (fun idx => get_sensor_data float_repr (world_at inland_environment idx) "key" idx)
          SENSOR_INDICES with
  | Returned records => records
  | Raised _ => []
  end.

(** The session after one refresh in [demo_environment], and the row of
    sensor 279253 in it. *)
Definition demo_state : session_state :=
  (do_refresh plain_repr demo_environment initial_session_state).1.

Definition demo_row : record := default ∅ (demo_records plain_repr !! 1%nat).

(** The table a run of [display_table] has shown (none: no rows). *)
Definition shown_table (res : result (option DataFrame)) : DataFrame :=
  match res with
  | Returned (Some table) => table
  | _ => []
  end.

(** ** The rest of a script run *)

Definition display_cols : gmap string string :=
  {[ "sensor_index" := "Sensor ID";
     "status" := "Status";
     "name" := "Name";
     "minutes_since_seen" := "Mins Ago";
     "confidence" := "Confidence (%)";
     "rssi" := "WiFi (RSSI)";
     "uptime" := "Uptime (min)";
     "pm2.5" := "PM2.5";
     "pm2.5_60minute" := "PM2.5 (60m avg)";
     "temperature_a" := "Temp (°F)";
     "model" := "Model";
     "latitude" := "Lat";
     "longitude" := "Lon" ]}.

(** The label of a column after [df.rename(columns=display_cols)]: a
    label that [display_cols] does not list is kept. *)
Definition rename_label (c : string) : string :=
  match display_cols !! c with
  | Some c' => c'
  | None => c
  end.

Definition COLUMN_ORDER : list string :=
  [ "Status"; "Sensor ID"; "Name"; "Mins Ago"; "Confidence (%)";
    "WiFi (RSSI)"; "Uptime (min)"; "PM2.5"; "PM2.5 (60m avg)";
    "Temp (°F)"; "Model"; "Lat"; "Lon" ].

(** [order]: the labels of [COLUMN_ORDER] that are columns of the renamed
    frame, in that order; these are the columns of the table on the page. *)
Definition order (df : DataFrame) : list string :=
  filter (fun c => c ∈ (set_map rename_label (columns df) : gset string))
         COLUMN_ORDER.

(** What the map part of the script puts on the page. *)
Inductive map_panel : Type :=
| MapShown (data : DataFrame) (initial_view_state : ViewState)
| NoLocationWarning
| NoMap.

(** The map part: [df] is the local variable of the script, which the
    table part has rebound to the sorted frame when it drew a table. *)
Definition display_map (df_local : DataFrame) (st : session_state) : map_panel :=
  if negb (df_empty (df_map st)) then MapShown (df_map st) (view_state st)
  else if df_empty (df_map st) && negb (df_empty df_local) then NoLocationWarning
  else NoMap.

Record page : Type := {
  page_table : option (list string * DataFrame);  (* headers, sorted frame *)
  page_map : map_panel;
  page_raw : DataFrame                            (* the Show Raw Data panel *)
}.

(** One run of the script after the callbacks: table, map, raw data.  An
    exception of the table part ends the run. *)
Definition run_script (now_ts : Q) : callback page := fun st =>
  match display_table now_ts st with
  | (st, Raised e) => (st, Raised e)
  | (st, Returned table) =>
      let df_local :=
        match table with
        | Some sorted => sorted
        | None => df st
        end in
      (st, Returned {| page_table := (fun sorted => (order sorted, sorted)) <$> table;
                       page_map := display_map df_local st;
                       page_raw := df st |})
  end.

(** The page a script run has drawn (a blank page when it raised). *)
Definition shown_page (res : result page) : page :=
  match res with
  | Returned p => p
  | Raised _ => {| page_table := None; page_map := NoMap; page_raw := [] |}
  end.

(** The cells that [display_table] derives for a row. *)
Definition minutes_cell (now_ts : Q) (r : record) : value :=
  match minutes_since now_ts (r !! "last_seen") with
  | Returned v => v
  | Raised _ => VNone
  end.

Definition priority_cell (r : record) : value :=
  match r !! "status" with
  | Some (VStr s) => VInt (status_priority s)
  | _ => VNone
  end.

(** A row after the two column assignments of [display_table]. *)
Definition with_derived_cells (now_ts : Q) (r : record) : record :=
  <["__priority" := priority_cell (<["minutes_since_seen" := minutes_cell now_ts r]> r)]>
    (<["minutes_since_seen" := minutes_cell now_ts r]> r).

(** [int(s)] for the decimal strings that [str] writes. *)
Definition parse_int (s : string) : option Z :=
  Z.of_int <$> NilZero.int_of_string s.

(** * Properties *)

(** ** Auxiliary facts *)

Lemma Qlt_bool_true (x y : Q) : Qlt_bool x y = true <-> (x < y)%Q.
Proof.
  unfold Qlt_bool. rewrite negb_true_iff.
  split.
  - intros Hb. apply Qnot_le_lt. intros Hle.
    apply Qle_bool_iff in Hle. congruence.
  - intros Hlt. destruct (Qle_bool y x) eqn:Hb; [|reflexivity].
    apply Qle_bool_iff in Hb. exfalso. exact (Qlt_not_le _ _ Hlt Hb).
Qed.

Lemma Qlt_bool_false (x y : Q) : Qlt_bool x y = false <-> (y <= x)%Q.
Proof.
  unfold Qlt_bool. rewrite negb_false_iff. apply Qle_bool_iff.
Qed.

Lemma status_color_offline : status_color "offline" = Returned (VList [255; 0; 0; 160]).
Proof. reflexivity. Qed.

Lemma status_color_low_confidence :
  status_color "low_confidence" = Returned (VList [255; 255; 0; 160]).
Proof. reflexivity. Qed.

Lemma status_color_online : status_color "online" = Returned (VList [0; 255; 0; 160]).
Proof. reflexivity. Qed.

Lemma dict_get_insert_ne (d : record) (k k' : string) (v dflt : value) :
  k ≠ k' -> dict_get (<[k := v]> d) k' dflt = dict_get d k' dflt.
Proof. intros Hne. unfold dict_get. by rewrite lookup_insert_ne. Qed.

Lemma dict_get_absent (d : record) (k : string) (dflt : value) :
  d !! k = None -> dict_get d k dflt = dflt.
Proof. intros Hd. unfold dict_get. by rewrite Hd. Qed.

Section FetchFacts.

Variable float_repr : Q -> string.

(** The three outcomes of a fetch that succeeds, as equations. *)

Lemma fetched_offline w api_key sensor_index sensor last_seen :
  requests_get w (request_url sensor_index) api_key = Ok sensor ->
  as_number (dict_get (default ∅ sensor) "last_seen" (VInt 0)) = Some last_seen ->
  (600 < utc_now w - last_seen)%Q ->
  get_sensor_data float_repr w api_key sensor_index =
    Returned
      (<["color" := VList [255; 0; 0; 160]]>
         (<["status" :=
              VStr ("❌ Offline (" +:+
                      str_int (Qfloor ((utc_now w - last_seen) / 3600)) +:+
                      " hr ago)")]>
            (<["sensor_index" := VInt sensor_index]> (default ∅ sensor)))).
Proof.
  intros Hresp Hnum Hage. unfold get_sensor_data. rewrite Hresp. cbv zeta.
  rewrite !dict_get_insert_ne by done.
  unfold float_sub. rewrite Hnum. cbn [mbind result_bind].
  change (inject_Z STALE_THRESHOLD_SECONDS) with 600%Q.
  apply Qlt_bool_true in Hage. rewrite Hage.
  rewrite status_color_offline. reflexivity.
Qed.

Lemma fetched_low_confidence w api_key sensor_index sensor last_seen conf :
  requests_get w (request_url sensor_index) api_key = Ok sensor ->
  as_number (dict_get (default ∅ sensor) "last_seen" (VInt 0)) = Some last_seen ->
  (utc_now w - last_seen <= 600)%Q ->
  as_number (dict_get (default ∅ sensor) "confidence" (VInt 0)) = Some conf ->
  (conf < 75)%Q ->
  get_sensor_data float_repr w api_key sensor_index =
    Returned
      (<["color" := VList [255; 255; 0; 160]]>
         (<["status" :=
              VStr ("⚠️ Low Confidence (" +:+
                      format float_repr
                        (dict_get (default ∅ sensor) "confidence" (VInt 0)) +:+
                      "%)")]>
            (<["sensor_index" := VInt sensor_index]> (default ∅ sensor)))).
Proof.
  intros Hresp Hnum Hage Hconf Hlow. unfold get_sensor_data. rewrite Hresp. cbv zeta.
  rewrite !dict_get_insert_ne by done.
  unfold float_sub, less_than. rewrite Hnum, Hconf. cbn [mbind result_bind].
  change (inject_Z STALE_THRESHOLD_SECONDS) with 600%Q.
  change (inject_Z LOW_CONFIDENCE_THRESHOLD) with 75%Q.
  apply Qlt_bool_false in Hage. rewrite Hage.
  apply Qlt_bool_true in Hlow. rewrite Hlow.
  rewrite status_color_low_confidence. reflexivity.
Qed.

Lemma fetched_online w api_key sensor_index sensor last_seen conf :
  requests_get w (request_url sensor_index) api_key = Ok sensor ->
  as_number (dict_get (default ∅ sensor) "last_seen" (VInt 0)) = Some last_seen ->
  (utc_now w - last_seen <= 600)%Q ->
  as_number (dict_get (default ∅ sensor) "confidence" (VInt 0)) = Some conf ->
  (75 <= conf)%Q ->
  get_sensor_data float_repr w api_key sensor_index =
    Returned
      (<["color" := VList [0; 255; 0; 160]]>
         (<["status" := VStr "✅ Online"]>
            (<["sensor_index" := VInt sensor_index]> (default ∅ sensor)))).
Proof.
  intros Hresp Hnum Hage Hconf Hhigh. unfold get_sensor_data. rewrite Hresp. cbv zeta.
  rewrite !dict_get_insert_ne by done.
  unfold float_sub, less_than. rewrite Hnum, Hconf. cbn [mbind result_bind].
  change (inject_Z STALE_THRESHOLD_SECONDS) with 600%Q.
  change (inject_Z LOW_CONFIDENCE_THRESHOLD) with 75%Q.
  apply Qlt_bool_false in Hage. rewrite Hage.
  apply Qlt_bool_false in Hhigh. rewrite Hhigh.
  rewrite status_color_online. reflexivity.
Qed.

(** The placeholders of a fetch that fails. *)

Lemma failed_http w api_key sensor_index code :
  requests_get w (request_url sensor_index) api_key = HTTPError code ->
  get_sensor_data float_repr w api_key sensor_index =
    Returned {[ "sensor_index" := VInt sensor_index;
                "status" :=
                  VStr (if (code =? 403)%Z then "❌ HTTP 403 (Invalid API Key?)"
                        else if (code =? 404)%Z then "❌ HTTP 404 (Not Found)"
                        else "❌ HTTP " +:+ str_int code);
                "name" := VStr "N/A";
                "color" := VList [255; 0; 0; 160] ]}.
Proof.
  intros Hresp. unfold get_sensor_data. rewrite Hresp. cbv zeta.
  rewrite status_color_offline. cbn [mbind result_bind].
  destruct (code =? 403)%Z eqn:H403.
  - apply Z.eqb_eq in H403. subst code. reflexivity.
  - destruct (code =? 404)%Z eqn:H404; [|reflexivity].
    apply Z.eqb_eq in H404. subst code. reflexivity.
Qed.

Lemma failed_request w api_key sensor_index :
  requests_get w (request_url sensor_index) api_key = RequestException ->
  get_sensor_data float_repr w api_key sensor_index =
    Returned {[ "sensor_index" := VInt sensor_index;
                "status" := VStr "❌ Request Error";
                "name" := VStr "N/A";
                "color" := VList [255; 0; 0; 160] ]}.
Proof.
  intros Hresp. unfold get_sensor_data. rewrite Hresp. cbv zeta.
  rewrite status_color_offline. reflexivity.
Qed.

(** [get_sensor_data] on a fetch that succeeds is the decision rule
    [classify], its two results stored under ["status"] and ["color"]. *)
Lemma fetched_classify w api_key sensor_index sensor :
  requests_get w (request_url sensor_index) api_key = Ok sensor ->
  get_sensor_data float_repr w api_key sensor_index =
    v ← classify float_repr (utc_now w)
          (dict_get (default ∅ sensor) "last_seen" (VInt 0))
          (dict_get (default ∅ sensor) "confidence" (VInt 0));
    Returned (<["color" := VList v.2]>
                (<["status" := VStr v.1]>
                   (<["sensor_index" := VInt sensor_index]> (default ∅ sensor)))).
Proof.
  intros Hresp. unfold get_sensor_data, classify. rewrite Hresp. cbv zeta.
  rewrite !dict_get_insert_ne by done.
  destruct (float_sub _ _) as [age|e]; [|reflexivity]. cbn [mbind result_bind].
  change (inject_Z STALE_THRESHOLD_SECONDS) with 600%Q.
  destruct (Qlt_bool 600 age); [reflexivity|].
  unfold LOW_CONFIDENCE_THRESHOLD.
  destruct (less_than _ 75) as [[|]|e]; reflexivity.
Qed.

End FetchFacts.

Lemma status_of_insert_color (r : record) (v : value) :
  status_of (<["color" := v]> r) = status_of r.
Proof. unfold status_of. by rewrite lookup_insert_ne. Qed.

Lemma status_of_insert_status (r : record) (s : string) :
  status_of (<["status" := VStr s]> r) = Some s.
Proof. unfold status_of. by rewrite lookup_insert_eq. Qed.

Lemma color_of_insert_color (r : record) (c : list Z) :
  color_of (<["color" := VList c]> r) = Some c.
Proof. unfold color_of. by rewrite lookup_insert_eq. Qed.

(** The category of each label that [get_sensor_data] writes. *)

Lemma offline_label_health (hrs : string) :
  health_of_status ("❌ Offline (" +:+ hrs +:+ " hr ago)") = Some Offline.
Proof. reflexivity. Qed.

Lemma http_label_health (code : string) :
  health_of_status ("❌ HTTP " +:+ code) = Some Offline.
Proof. reflexivity. Qed.

Lemma request_error_label_health :
  health_of_status "❌ Request Error" = Some Offline.
Proof. reflexivity. Qed.

Lemma low_confidence_label_health (conf : string) :
  health_of_status ("⚠️ Low Confidence (" +:+ conf +:+ "%)") = Some LowConfidence.
Proof. reflexivity. Qed.

Lemma online_label_health : health_of_status "✅ Online" = Some Online.
Proof. reflexivity. Qed.

Lemma classify_color float_repr now last_seen conf s c :
  classify float_repr now last_seen conf = Returned (s, c) ->
  color_for_status s = Some c.
Proof.
  unfold classify. destruct (float_sub now last_seen) as [age|e]; [|discriminate].
  cbn [mbind result_bind]. destruct (Qlt_bool 600 age).
  - intros [= <- <-]. reflexivity.
  - destruct (less_than conf 75) as [[|]|e]; cbn [mbind result_bind];
      [intros [= <- <-]; reflexivity .. | discriminate].
Qed.

Lemma classified_returned (r : record) (s : string) (c : list Z) (h : health) :
  health_of_status s = Some h ->
  STATUS_COLORS !! health_key h = Some c ->
  classified (Returned (<["color" := VList c]> (<["status" := VStr s]> r))) h.
Proof.
  intros Hh Hc. exists (<["color" := VList c]> (<["status" := VStr s]> r)), s.
  rewrite status_of_insert_color, status_of_insert_status, color_of_insert_color.
  by rewrite Hc.
Qed.


(** ** Classification of a fetched record *)



(** ** Fetch failures *)

Lemma uint_no_space (d : Decimal.uint) :
  has_char " " (NilEmpty.string_of_uint d) = false.
Proof. induction d; simpl; auto. Qed.

Lemma str_int_no_space (z : Z) : has_char " " (str_int z) = false.
Proof.
  unfold str_int. destruct (Z.to_int z) as [d|d]; simpl;
    destruct d; simpl; auto using uint_no_space.
Qed.

Lemma http_label_bare (code : Z) (suffix : string) :
  has_char " " suffix = true ->
  "❌ HTTP " +:+ str_int code ≠ "❌ HTTP " +:+ suffix.
Proof.
  intros Hsp Heq. apply (inj (String.append _)) in Heq.
  pose proof (str_int_no_space code) as Hno. rewrite Heq in Hno. congruence.
Qed.

(** C2: a fetch that fails makes [get_sensor_data] return a placeholder
    record, never raise: HTTP 403 gives the invalid-API-key label, HTTP 404
    the not-found label, any other HTTP error status the label with its
    status code, no response the request-error label; these labels differ
    from each other, and in all four cases the colour is the offline red
    (255, 0, 0, 160).  In a batch the placeholder takes the sensor's place
    and the remaining sensors are fetched. *)
Theorem fetch_failure_placeholder float_repr w api_key sensor_index :
  let resp := requests_get w (request_url sensor_index) api_key in
  let res := get_sensor_data float_repr w api_key sensor_index in
  (resp = HTTPError 403 ->
   res = Returned (placeholder sensor_index "❌ HTTP 403 (Invalid API Key?)")) /\
  (resp = HTTPError 404 ->
   res = Returned (placeholder sensor_index "❌ HTTP 404 (Not Found)")) /\
  (forall code, resp = HTTPError code -> code ≠ 403 -> code ≠ 404 ->
   res = Returned (placeholder sensor_index ("❌ HTTP " +:+ str_int code)) /\
   "❌ HTTP " +:+ str_int code ≠ "❌ HTTP 403 (Invalid API Key?)" /\
   "❌ HTTP " +:+ str_int code ≠ "❌ HTTP 404 (Not Found)" /\
   "❌ HTTP " +:+ str_int code ≠ "❌ Request Error") /\
  (resp = RequestException ->
   res = Returned (placeholder sensor_index "❌ Request Error")) /\
  (forall status,
     status_of (placeholder sensor_index status) = Some status /\
     color_of (placeholder sensor_index status) = Some [255; 0; 0; 160]) /\
  (forall status (f : Z -> result record) rest,
     f sensor_index = Returned (placeholder sensor_index status) ->
     comprehension f (sensor_index :: rest) =
       records ← comprehension f rest;
       Returned (placeholder sensor_index status :: records)).
Proof.
  intros resp res. split; [|split; [|split; [|split; [|split]]]].
  - intros Hresp. unfold res. by rewrite (failed_http float_repr _ _ _ _ Hresp).
  - intros Hresp. unfold res. by rewrite (failed_http float_repr _ _ _ _ Hresp).
  - intros code Hresp H403 H404. split; [|split; [|split]].
    + unfold res. rewrite (failed_http float_repr _ _ _ _ Hresp).
      apply Z.eqb_neq in H403, H404. by rewrite H403, H404.
    + by apply http_label_bare.
    + by apply http_label_bare.
    + discriminate.
  - intros Hresp. unfold res. by rewrite (failed_request float_repr _ _ _ Hresp).
  - intros status. split; reflexivity.
  - intros status f rest Hf. cbn [comprehension]. by rewrite Hf.
Qed.

Lemma fetch_failure_placeholder_witness :
  get_sensor_data plain_repr (world_of (HTTPError 500) 1700000000) "key" 155503 =
    Returned (placeholder 155503 "❌ HTTP 500") /\
  get_sensor_data plain_repr (world_of (HTTPError 403) 1700000000) "key" 155503 =
    Returned (placeholder 155503 "❌ HTTP 403 (Invalid API Key?)") /\
  get_sensor_data plain_repr (world_of (HTTPError 404) 1700000000) "key" 155503 =
    Returned (placeholder 155503 "❌ HTTP 404 (Not Found)") /\
  get_sensor_data plain_repr (world_of RequestException 1700000000) "key" 155503 =
    Returned (placeholder 155503 "❌ Request Error").
Proof.
  split; [|split; [|split]].
  - destruct (fetch_failure_placeholder plain_repr
                (world_of (HTTPError 500) 1700000000) "key" 155503)
      as (_ & _ & Hother & _).
    destruct (Hother 500 eq_refl) as [Hres _]; [lia | lia | exact Hres].
  - destruct (fetch_failure_placeholder plain_repr
                (world_of (HTTPError 403) 1700000000) "key" 155503)
      as (H403 & _).
    exact (H403 eq_refl).
  - destruct (fetch_failure_placeholder plain_repr
                (world_of (HTTPError 404) 1700000000) "key" 155503)
      as (_ & H404 & _).
    exact (H404 eq_refl).
  - destruct (fetch_failure_placeholder plain_repr
                (world_of RequestException 1700000000) "key" 155503)
      as (_ & _ & _ & Hreq & _).
    exact (Hreq eq_refl).
Defined.

(** ** Status and colour *)

(** C4: every record that [get_sensor_data] returns, for a fetch that
    succeeded or failed, holds one status label and one colour, and the
    colour is the one [STATUS_COLORS] has for the health category of the
    label; so two records with the same label have the same colour.  After
    a fetch that failed the colour is that of Offline. *)
Theorem color_determined_by_status float_repr w api_key sensor_index r :
  get_sensor_data float_repr w api_key sensor_index = Returned r ->
  (exists s c,
     r !! "status" = Some (VStr s) /\ r !! "color" = Some (VList c) /\
     color_for_status s = Some c /\
     ((forall sensor, requests_get w (request_url sensor_index) api_key ≠ Ok sensor) ->
      health_of_status s = Some Offline /\
      Some c = STATUS_COLORS !! health_key Offline)) /\
  (forall w' api_key' sensor_index' r',
     get_sensor_data float_repr w' api_key' sensor_index' = Returned r' ->
     status_of r' = status_of r -> color_of r' = color_of r).
Proof.
  assert (Hone : forall w api_key sensor_index r,
    get_sensor_data float_repr w api_key sensor_index = Returned r ->
    exists s c,
      r !! "status" = Some (VStr s) /\ r !! "color" = Some (VList c) /\
      color_for_status s = Some c /\
      ((forall sensor, requests_get w (request_url sensor_index) api_key ≠ Ok sensor) ->
       health_of_status s = Some Offline /\
       Some c = STATUS_COLORS !! health_key Offline)).
  { clear. intros w api_key sensor_index r Hres.
    destruct (requests_get w (request_url sensor_index) api_key)
      as [sensor|code|] eqn:Hresp.
    - rewrite (fetched_classify float_repr _ _ _ _ Hresp) in Hres.
      destruct (classify _ _ _ _) as [[s c]|e] eqn:Hcl; [|discriminate].
      cbn in Hres. injection Hres as <-. exists s, c.
      rewrite lookup_insert_ne by done. rewrite !lookup_insert_eq.
      split; [done|]. split; [done|]. split; [by eapply classify_color|].
      intros Hno. by destruct (Hno sensor).
    - rewrite (failed_http float_repr _ _ _ _ Hresp) in Hres.
      injection Hres as <-. eexists _, _.
      split; [reflexivity|]. split; [reflexivity|].
      destruct (code =? 403)%Z; [by repeat split|].
      destruct (code =? 404)%Z; by repeat split.
    - rewrite (failed_request float_repr _ _ _ Hresp) in Hres.
      injection Hres as <-. eexists _, _. by repeat split. }
  intros Hres. split; [by apply Hone|].
  intros w' api_key' sensor_index' r' Hres' Hsame.
  destruct (Hone _ _ _ _ Hres) as (s & c & Hs & Hc & Hcol & _).
  destruct (Hone _ _ _ _ Hres') as (s' & c' & Hs' & Hc' & Hcol' & _).
  unfold status_of, color_of in *. rewrite Hs, Hs' in Hsame.
  rewrite Hc, Hc'. congruence.
Qed.

Lemma color_determined_by_status_witness :
  exists s c,
    placeholder 163169 "❌ Request Error" !! "status" = Some (VStr s) /\
    placeholder 163169 "❌ Request Error" !! "color" = Some (VList c) /\
    color_for_status s = Some c.
Proof.
  destruct (color_determined_by_status plain_repr
              (world_of RequestException 1700000000) "key" 163169
              (placeholder 163169 "❌ Request Error") eq_refl)
    as [(s & c & Hs & Hc & Hcol & _) _].
  exists s, c. auto.
Defined.

(** ** Missing fields *)

(** C5: a record fetched successfully whose response has no confidence
    field is compared as confidence 0: when it is not Offline
    ([age_seconds <= 600]) it is LowConfidence, with 0 as the percentage of
    the label. *)
Theorem missing_confidence_is_low
    float_repr w api_key sensor_index sensor last_seen :
  requests_get w (request_url sensor_index) api_key = Ok sensor ->
  default ∅ sensor !! "confidence" = None ->
  as_number (dict_get (default ∅ sensor) "last_seen" (VInt 0)) = Some last_seen ->
  (utc_now w - last_seen <= 600)%Q ->
  let res := get_sensor_data float_repr w api_key sensor_index in
  classified res LowConfidence /\
  verdict res = Returned (Some "⚠️ Low Confidence (0%)", Some [255; 255; 0; 160]).
Proof.
  intros Hresp Hmiss Hnum Hage res.
  assert (Hres : res =
    Returned
      (<["color" := VList [255; 255; 0; 160]]>
         (<["status" := VStr "⚠️ Low Confidence (0%)"]>
            (<["sensor_index" := VInt sensor_index]> (default ∅ sensor))))).
  { unfold res.
    rewrite (fetched_low_confidence float_repr _ _ _ _ last_seen 0 Hresp Hnum Hage).
    - by rewrite (dict_get_absent _ _ _ Hmiss).
    - by rewrite (dict_get_absent _ _ _ Hmiss).
    - reflexivity. }
  rewrite Hres. split.
  - by apply classified_returned.
  - unfold verdict. cbn [mbind result_bind].
    by rewrite status_of_insert_color, status_of_insert_status, color_of_insert_color.
Qed.

Lemma missing_confidence_is_low_witness :
  verdict (get_sensor_data plain_repr
             (world_of (Ok (Some {[ "last_seen" := VInt 1700000000 ]})) 1700000030)
             "key" 155501)
  = Returned (Some "⚠️ Low Confidence (0%)", Some [255; 255; 0; 160]).
Proof.
  refine (proj2 (missing_confidence_is_low plain_repr
            (world_of (Ok (Some {[ "last_seen" := VInt 1700000000 ]})) 1700000030)
            "key" 155501 (Some {[ "last_seen" := VInt 1700000000 ]}) 1700000000
            eq_refl eq_refl eq_refl _)).
  vm_compute. discriminate.
Defined.

(** C9: a record fetched successfully whose response has no last_seen
    field gets last_seen 0, so that [age_seconds] is the clock reading
    itself; at any clock reading above 600 the record is Offline and its
    label counts [floor(now / 3600)] hours.  No other label is written for
    such a record. *)
Theorem missing_last_seen_is_offline float_repr w api_key sensor_index sensor :
  requests_get w (request_url sensor_index) api_key = Ok sensor ->
  default ∅ sensor !! "last_seen" = None ->
  (600 < utc_now w)%Q ->
  let res := get_sensor_data float_repr w api_key sensor_index in
  classified res Offline /\
  verdict res =
    Returned (Some ("❌ Offline (" +:+ str_int (Qfloor (utc_now w / 3600)) +:+ " hr ago)"),
              Some [255; 0; 0; 160]).
Proof.
  intros Hresp Hmiss Hnow res.
  assert (Hage : (600 < utc_now w - 0)%Q) by lra.
  assert (Hfloor : Qfloor ((utc_now w - 0) / 3600) = Qfloor (utc_now w / 3600)).
  { apply Qfloor_comp. field. }
  assert (Hres : res =
    Returned
      (<["color" := VList [255; 0; 0; 160]]>
         (<["status" :=
              VStr ("❌ Offline (" +:+ str_int (Qfloor (utc_now w / 3600)) +:+ " hr ago)")]>
            (<["sensor_index" := VInt sensor_index]> (default ∅ sensor))))).
  { unfold res.
    rewrite (fetched_offline float_repr _ _ _ _ 0 Hresp); [by rewrite Hfloor| |done].
    by rewrite (dict_get_absent _ _ _ Hmiss). }
  rewrite Hres. split.
  - by apply classified_returned.
  - unfold verdict. cbn [mbind result_bind].
    by rewrite status_of_insert_color, status_of_insert_status, color_of_insert_color.
Qed.

Lemma missing_last_seen_is_offline_witness :
  verdict (get_sensor_data plain_repr
             (world_of (Ok (Some {[ "confidence" := VInt 100 ]})) 1700000000)
             "key" 155521)
  = Returned (Some "❌ Offline (472222 hr ago)", Some [255; 0; 0; 160]).
Proof.
  refine (proj2 (missing_last_seen_is_offline plain_repr
            (world_of (Ok (Some {[ "confidence" := VInt 100 ]})) 1700000000)
            "key" 155521 (Some {[ "confidence" := VInt 100 ]})
            eq_refl eq_refl _)).
  vm_compute. reflexivity.
Defined.

(** ** The clock *)

(** C7, as the claim has it, fails: [get_sensor_data] takes no [now]; it
    reads the clock itself.  Two calls with the same arguments and the same
    response (same last_seen, same confidence) that differ only in the
    clock reading return different labels and colours. *)
Lemma same_inputs_different_clock :
  let resp := Ok (Some (sensor_with 1700000000 90)) in
  verdict (get_sensor_data plain_repr (world_of resp 1700000100) "key" 270898)
    = Returned (Some "✅ Online", Some [0; 255; 0; 160]) /\
  verdict (get_sensor_data plain_repr (world_of resp 1700009000) "key" 270898)
    = Returned (Some "❌ Offline (2 hr ago)", Some [255; 0; 0; 160]) /\
  verdict (get_sensor_data plain_repr (world_of resp 1700000100) "key" 270898)
    ≠ verdict (get_sensor_data plain_repr (world_of resp 1700009000) "key" 270898).
Proof. cbv zeta. split; [|split]; [by vm_compute..|]. vm_compute. discriminate. Qed.

(** C7, amended: the label and colour of a fetched record are a function
    ([classify]) of the clock reading the call takes and of the last_seen
    and confidence of the response, and of nothing else: two calls that
    read the same clock value and see the same two fields decide alike,
    whatever the sensor, the key and the other fields are. *)
Theorem classification_determined
    float_repr w1 w2 api_key1 api_key2 sensor_index1 sensor_index2 sensor1 sensor2 :
  requests_get w1 (request_url sensor_index1) api_key1 = Ok sensor1 ->
  requests_get w2 (request_url sensor_index2) api_key2 = Ok sensor2 ->
  utc_now w1 = utc_now w2 ->
  dict_get (default ∅ sensor1) "last_seen" (VInt 0) =
    dict_get (default ∅ sensor2) "last_seen" (VInt 0) ->
  dict_get (default ∅ sensor1) "confidence" (VInt 0) =
    dict_get (default ∅ sensor2) "confidence" (VInt 0) ->
  verdict (get_sensor_data float_repr w1 api_key1 sensor_index1) =
    (v ← classify float_repr (utc_now w1)
           (dict_get (default ∅ sensor1) "last_seen" (VInt 0))
           (dict_get (default ∅ sensor1) "confidence" (VInt 0));
     Returned (Some v.1, Some v.2)) /\
  verdict (get_sensor_data float_repr w1 api_key1 sensor_index1) =
    verdict (get_sensor_data float_repr w2 api_key2 sensor_index2).
Proof.
  intros Hresp1 Hresp2 Hnow Hseen Hconf.
  assert (Hv : forall w api_key sensor_index sensor,
    requests_get w (request_url sensor_index) api_key = Ok sensor ->
    verdict (get_sensor_data float_repr w api_key sensor_index) =
      (v ← classify float_repr (utc_now w)
             (dict_get (default ∅ sensor) "last_seen" (VInt 0))
             (dict_get (default ∅ sensor) "confidence" (VInt 0));
       Returned (Some v.1, Some v.2))).
  { clear. intros w api_key sensor_index sensor Hresp.
    rewrite (fetched_classify float_repr _ _ _ _ Hresp).
    destruct (classify _ _ _ _) as [[s c]|e]; [|reflexivity].
    unfold verdict. cbn [mbind result_bind fst snd].
    by rewrite status_of_insert_color, status_of_insert_status, color_of_insert_color. }
  split; [by apply Hv|].
  rewrite (Hv _ _ _ _ Hresp1), (Hv _ _ _ _ Hresp2). by rewrite Hnow, Hseen, Hconf.
Qed.

Lemma classification_determined_witness :
  verdict (get_sensor_data plain_repr
             (world_of (Ok (Some (sensor_with 1700000000 40))) 1700000100)
             "key" 270898) =
  verdict (get_sensor_data plain_repr
             (world_of (Ok (Some (<["name" := VStr "Yard"]> (sensor_with 1700000000 40))))
                1700000100)
             "other key" 279253).
Proof.
  pose proof (classification_determined plain_repr
            (world_of (Ok (Some (sensor_with 1700000000 40))) 1700000100)
            (world_of (Ok (Some (<["name" := VStr "Yard"]> (sensor_with 1700000000 40))))
               1700000100)
            "key" "other key" 270898 279253
            (Some (sensor_with 1700000000 40))
            (Some (<["name" := VStr "Yard"]> (sensor_with 1700000000 40)))
            eq_refl eq_refl) as H.
  apply H; vm_compute; reflexivity.
Defined.

(** ** The boundary example *)

(** C8, as the claim has it, fails: at now = 1000000600,
    last_seen = 1000000000, confidence = 80 the record is not Offline and
    its label does not say "1 hr ago". *)
Lemma boundary_example_not_offline :
  ~ exists r s,
      get_sensor_data plain_repr
        (world_of (Ok (Some (sensor_with 1000000000 80))) 1000000600) "key" 270898
        = Returned r /\
      status_of r = Some s /\
      health_of_status s = Some Offline /\
      contains "1 hr ago" s = true.
Proof.
  intros (r & s & Hres & Hs & Hh & _).
  rewrite (fetched_online plain_repr _ _ _ (Some (sensor_with 1000000000 80))
             1000000000 80) in Hres; try reflexivity.
  - injection Hres as <-.
    rewrite status_of_insert_color, status_of_insert_status in Hs.
    injection Hs as <-. rewrite online_label_health in Hh. discriminate.
  - vm_compute. discriminate.
  - vm_compute. discriminate.
Qed.

(** C8, amended: at now = 1000000600, last_seen = 1000000000,
    confidence = 80 the age is 600, which is not above the threshold, and
    80 is not below 75: the record is Online, in green. *)
Theorem boundary_example_online float_repr api_key sensor_index :
  let res :=
    get_sensor_data float_repr
      (world_of (Ok (Some (sensor_with 1000000000 80))) 1000000600)
      api_key sensor_index in
  classified res Online /\
  verdict res = Returned (Some "✅ Online", Some [0; 255; 0; 160]).
Proof.
  intros res.
  assert (Hres : res =
    Returned
      (<["color" := VList [0; 255; 0; 160]]>
         (<["status" := VStr "✅ Online"]>
            (<["sensor_index" := VInt sensor_index]> (sensor_with 1000000000 80))))).
  { unfold res.
    apply (fetched_online float_repr _ _ _ (Some (sensor_with 1000000000 80))
             1000000000 80); try reflexivity.
    - vm_compute. discriminate.
    - vm_compute. discriminate. }
  rewrite Hres. split.
  - by apply classified_returned.
  - unfold verdict. cbn [mbind result_bind].
    by rewrite status_of_insert_color, status_of_insert_status, color_of_insert_color.
Qed.

(** ** Session state *)

(** C10: [reset_view] sets the camera to the default (latitude 37.9577,
    longitude -121.2908, zoom 10, pitch 0) and leaves the table and map
    frames as they are; [do_refresh] leaves the camera as it is, whether it
    returns or raises. *)
Theorem reset_view_frame float_repr env st :
  view_state (reset_view st).1 =
    {| latitude := 37.9577; longitude := -121.2908; zoom := 10; pitch := 0 |} /\
  df (reset_view st).1 = df st /\
  df_map (reset_view st).1 = df_map st /\
  (reset_view st).2 = Returned tt /\
  view_state (do_refresh float_repr env st).1 = view_state st.
Proof.
  repeat split. unfold do_refresh.
  destruct (secrets env !! "textkey") as [api_key|]; [|reflexivity].
  destruct (comprehension _ SENSOR_INDICES) as [records|e]; [|reflexivity].
  cbv zeta. destruct (dropna _ _); reflexivity.
Qed.

(** The frames of a refresh *)

Lemma elem_of_columns (c : string) (df : DataFrame) :
  c ∈ columns df <-> exists r, r ∈ df /\ is_Some (r !! c).
Proof.
  unfold columns. rewrite elem_of_union_list. split.
  - intros (X & HX & Hc). apply list_elem_of_fmap in HX as (r & -> & Hr).
    exists r. split; [done|]. by apply elem_of_dom.
  - intros (r & Hr & Hc). exists (dom r). split.
    + apply list_elem_of_fmap. by exists r.
    + by apply elem_of_dom.
Qed.

Lemma has_coordinates_forallb (r : record) :
  forallb (fun c => notna (r !! c)) ["latitude"; "longitude"] = has_coordinates r.
Proof. unfold has_coordinates. cbn. by rewrite andb_true_r. Qed.

Lemma notna_is_Some (cell : option value) : notna cell = true -> is_Some cell.
Proof. destruct cell; [eauto|discriminate]. Qed.

(** What [dropna] on the two coordinates comes to. *)
Lemma dropna_coordinates (df : DataFrame) :
  match dropna ["latitude"; "longitude"] df with
  | Returned m => m = filter (fun r => has_coordinates r) df
  | Raised _ => Forall (fun r => has_coordinates r = false) df
  end.
Proof.
  unfold dropna.
  destruct (filter (λ c, c ∉ columns df) ["latitude"; "longitude"])
    as [|c l] eqn:Hmiss.
  - apply list_filter_iff. intros r. by rewrite has_coordinates_forallb.
  - assert (Hc : c ∈ filter (λ c, c ∉ columns df) ["latitude"; "longitude"])
      by (rewrite Hmiss; left).
    apply list_elem_of_filter in Hc as [Hnot Hc].
    apply Forall_forall. intros r Hr.
    destruct (has_coordinates r) eqn:Hhas; [|done]. exfalso. apply Hnot.
    unfold has_coordinates in Hhas. apply andb_true_iff in Hhas as [Hlat Hlon].
    apply elem_of_columns. exists r. split; [done|].
    apply notna_is_Some.
    apply elem_of_cons in Hc as [->|Hc]; [done|].
    apply elem_of_cons in Hc as [->|Hc]; [done|]. by apply elem_of_nil in Hc.
Qed.




(** ** The table order *)

Lemma comprehension_fmap {A B : Type} (f : A -> result B) (g : A -> B) (P : A -> Prop)
    (l : list A) (ys : list B) :
  (forall x y, f x = Returned y -> P x /\ y = g x) ->
  comprehension f l = Returned ys ->
  Forall P l /\ ys = g <$> l.
Proof.
  intros Hf. revert ys. induction l as [|x l IH]; intros ys Hc.
  - injection Hc as <-. by split.
  - cbn [comprehension] in Hc.
    destruct (f x) as [y|e] eqn:Hx; [|discriminate]. cbn [mbind result_bind] in Hc.
    destruct (comprehension f l) as [ys'|e]; [|discriminate].
    cbn [mbind result_bind] in Hc. injection Hc as <-.
    destruct (Hf _ _ Hx) as [HP ->]. destruct (IH _ eq_refl) as [HPl ->].
    split; [by constructor|done].
Qed.

Lemma set_column_fmap (c : string) (g : record -> value) (df : DataFrame) :
  set_column c (g <$> df) df = (fun r => <[c := g r]> r) <$> df.
Proof.
  unfold set_column. induction df as [|r df IH]; [done|]. cbn. by rewrite IH.
Qed.

Lemma set_column_apply (c : string) (cell : string) (g : option value -> value)
    (df : DataFrame) :
  set_column c (g <$> ((fun r => r !! cell) <$> df)) df =
    (fun r => <[c := g (r !! cell)]> r) <$> df.
Proof. rewrite <- list_fmap_compose. apply (set_column_fmap c (fun r => g (r !! cell))). Qed.



Section SortValues.

Variable c : string.

Lemma insert_sorted_perm (r : record) (l : DataFrame) :
  insert_sorted c r l ≡ₚ r :: l.
Proof.
  induction l as [|r' l IH]; [done|]. cbn.
  destruct (key_le _ _); [done|]. rewrite IH. apply Permutation_swap.
Qed.

Lemma sort_values_perm (df : DataFrame) : sort_values c df ≡ₚ df.
Proof.
  unfold sort_values. induction df as [|r df IH]; [done|].
  cbn. rewrite insert_sorted_perm. by rewrite IH.
Qed.




End SortValues.

(** What a run of [display_table] that shows a table has done: a cell of
    minutes added to every row, then the priority of the row's status
    label, and the rows sorted on it. *)
Lemma display_table_shown now_ts st st' table :
  display_table now_ts st = (st', Returned (Some table)) ->
  exists minutes : record -> value,
    let df1 := (fun r => <["minutes_since_seen" := minutes r]> r) <$> df st in
    Forall (fun r => exists s, r !! "status" = Some (VStr s)) df1 /\
    df st' =
      (fun r => <["__priority" :=
                    match r !! "status" with
                    | Some (VStr s) => VInt (status_priority s)
                    | _ => VNone
                    end]> r) <$> df1 /\
    table = delete "__priority" <$> sort_values "__priority" (df st').
Proof.
  unfold display_table. destruct (df_empty (df st)); [intros [= _ ?]; done|].
  unfold column at 1. destruct (decide ("last_seen" ∈ columns (df st))) as [_|_]; [|intros [= _ ?]; done].
  cbn [mbind result_bind].
  destruct (comprehension (minutes_since now_ts) _) as [mins|e1] eqn:Hmins;
    [|intros [= _ ?]; done].
  apply (comprehension_fmap _
           (fun x => match minutes_since now_ts x with
                     | Returned v => v
                     | Raised _ => VNone
                     end) (fun _ => True)) in Hmins as [_ ->];
    [|by intros x y ->].
  cbv zeta. cbn [df df_map view_state].
  rewrite set_column_apply.
  set (df1 := (fun r => <["minutes_since_seen" := _]> r) <$> df st).
  unfold column at 1. destruct (decide ("status" ∈ columns df1)) as [_|_]; [|intros [= _ ?]; done].
  cbn [mbind result_bind].
  destruct (comprehension status_priority_cell _) as [prios|e2] eqn:Hprios;
    [|intros [= _ ?]; done].
  apply (comprehension_fmap _
           (fun x => match x with
                     | Some (VStr s) => VInt (status_priority s)
                     | _ => VNone
                     end)
           (fun x => exists s, x = Some (VStr s))) in Hprios as [Hstr ->].
  2:{ intros [[| | | |s|]|] y [= <-]. eauto. }
  rewrite set_column_apply.
  unfold drop_column. destruct (decide _) as [_|_]; [|intros [= _ ?]; done].
  cbn [mbind result_bind]. intros [= <- <-]. eexists. split; [|split]; [|reflexivity..].
  apply (proj1 (Forall_fmap _ _ _)) in Hstr. exact Hstr.
Qed.


Lemma status_priority_range (s : string) : 0 <= status_priority s <= 3.
Proof. unfold status_priority. repeat case_match; lia. Qed.




(** ** A refresh in which every fetch fails *)

(** No placeholder has coordinates, so the frame has no latitude column
    and [dropna] raises: the table frame is replaced, the map frame is
    not, and the callback ends in [KeyError]. *)
Example refresh_all_failed :
  do_refresh plain_repr unreachable_environment initial_session_state =
    ({| df := (fun idx => placeholder idx "❌ Request Error") <$> SENSOR_INDICES;
        df_map := [];
        view_state := DEFAULT_VIEW |},
     Raised (KeyError "latitude")).
Proof.
  vm_cast_no_check
    (@eq_refl (session_state * result unit)
       (do_refresh plain_repr unreachable_environment initial_session_state)).
Qed.

(** * Further properties of the script *)

(** ** When [get_sensor_data] raises *)




(** ** What a returned record holds *)

(** X2: every cell of the sensor object is passed on under its key, except
    that ["sensor_index"] holds the index asked for and ["status"] and
    ["color"] hold the classification, whatever the response had there. *)
Theorem fetched_fields_kept float_repr w api_key sensor_index sensor r :
  requests_get w (request_url sensor_index) api_key = Ok sensor ->
  get_sensor_data float_repr w api_key sensor_index = Returned r ->
  (forall k, k ≠ "sensor_index" -> k ≠ "status" -> k ≠ "color" ->
             r !! k = default ∅ sensor !! k) /\
  r !! "sensor_index" = Some (VInt sensor_index) /\
  is_Some (status_of r) /\ is_Some (color_of r) /\
  dom r = dom (default ∅ sensor) ∪ {[ "sensor_index"; "status"; "color" ]}.
Proof.
  intros Hresp Hres. rewrite (fetched_classify float_repr _ _ _ _ Hresp) in Hres.
  destruct (classify _ _ _ _) as [[s c]|e]; [|discriminate].
  cbn in Hres. injection Hres as <-.
  split; [|split; [|split; [|split]]].
  - intros k H1 H2 H3. by rewrite !lookup_insert_ne.
  - do 2 (rewrite lookup_insert_ne by done). apply lookup_insert_eq.
  - rewrite status_of_insert_color, status_of_insert_status. eauto.
  - rewrite color_of_insert_color. eauto.
  - rewrite !dom_insert_L. apply set_eq. intros k.
    rewrite !elem_of_union, !elem_of_singleton. tauto.
Qed.

Lemma fetched_fields_kept_witness :
  let sensor : record :=
    {[ "sensor_index" := VInt 1; "status" := VStr "fine";
       "name" := VStr "Yard"; "last_seen" := VInt 1700000000 ]} in
  exists r,
    get_sensor_data plain_repr (world_of (Ok (Some sensor)) 1700000100) "key" 155537
      = Returned r /\
    r !! "name" = Some (VStr "Yard") /\
    r !! "sensor_index" = Some (VInt 155537) /\
    is_Some (status_of r).
Proof.
  intros sensor.
  assert (Hage : (1700000100 - 1700000000 <= 600)%Q) by (vm_compute; discriminate).
  assert (Hlow : (0 < 75)%Q) by reflexivity.
  pose proof (fetched_low_confidence plain_repr
                (world_of (Ok (Some sensor)) 1700000100) "key" 155537
                (Some sensor) 1700000000 0 eq_refl eq_refl Hage eq_refl Hlow) as Hres.
  eexists. split; [exact Hres|].
  destruct (fetched_fields_kept plain_repr
              (world_of (Ok (Some sensor)) 1700000100) "key" 155537
              (Some sensor) _ eq_refl Hres)
    as (Hkept & Hidx & Hstatus & _).
  split; [|split; [exact Hidx|exact Hstatus]].
  rewrite Hkept by done. reflexivity.
Defined.

(** ** The hour count of an Offline label *)




(** ** What a refresh leaves behind *)

Lemma comprehension_Forall2 {A B : Type} (f : A -> result B) (l : list A) (ys : list B) :
  comprehension f l = Returned ys -> Forall2 (fun x y => f x = Returned y) l ys.
Proof.
  revert ys. induction l as [|x l IH]; intros ys Hc.
  - injection Hc as <-. constructor.
  - cbn [comprehension] in Hc.
    destruct (f x) as [y|e] eqn:Hx; [|discriminate]. cbn [mbind result_bind] in Hc.
    destruct (comprehension f l) as [ys'|e]; [|discriminate].
    cbn [mbind result_bind] in Hc. injection Hc as <-. constructor; auto.
Qed.


Lemma dropna_raises (subset : list string) (df : DataFrame) (e : exn) :
  dropna subset df = Raised e ->
  exists c, e = KeyError c /\ c ∈ subset /\ c ∉ columns df.
Proof.
  unfold dropna. destruct (filter _ subset) as [|c l] eqn:Hmiss; [discriminate|].
  intros [= <-]. exists c. split; [done|].
  assert (Hc : c ∈ filter (λ c, c ∉ columns df) subset) by (rewrite Hmiss; left).
  apply list_elem_of_filter in Hc as [Hnot Hc]. done.
Qed.

(** X4: a refresh ends in one of three ways.  It raises before anything is
    stored (no secret, or a [TypeError] of some sensor) and the session
    state is as before; or it returns, and the table frame holds all
    records and the map frame those with both coordinates; or no record
    has one of the coordinate columns, [dropna] raises [KeyError], and the
    new table frame stands beside the map frame of before. *)
Theorem do_refresh_outcomes float_repr env st :
  (exists e, do_refresh float_repr env st = (st, Raised e)) \/
  (exists api_key records,
     secrets env !! "textkey" = Some api_key /\
     comprehension
       (fun idx => get_sensor_data float_repr (world_at env idx) api_key idx)
       SENSOR_INDICES = Returned records /\
     (do_refresh float_repr env st =
        ({| df := records;
            df_map := filter (fun r => has_coordinates r) records;
            view_state := view_state st |}, Returned tt) \/
      (Forall (fun r => has_coordinates r = false) records /\
       exists c, c ∈ ["latitude"; "longitude"] /\ (c ∉ columns records) /\
         do_refresh float_repr env st =
           ({| df := records; df_map := df_map st; view_state := view_state st |},
            Raised (KeyError c))))).
Proof.
  unfold do_refresh.
  destruct (secrets env !! "textkey") as [api_key|] eqn:Hkey; [|left; eauto].
  destruct (comprehension _ SENSOR_INDICES) as [records|e] eqn:Hrecords; [|left; eauto].
  right. exists api_key, records. split; [done|]. split; [done|]. cbv zeta.
  pose proof (dropna_coordinates (pd_DataFrame records)) as Hdrop.
  destruct (dropna _ _) as [m|e] eqn:Hd.
  - left. by subst m.
  - right. split; [done|]. apply dropna_raises in Hd as (c & -> & Hc & Hno). eauto.
Qed.

Lemma do_refresh_df float_repr env st api_key records :
  secrets env !! "textkey" = Some api_key ->
  comprehension
    (fun idx => get_sensor_data float_repr (world_at env idx) api_key idx)
    SENSOR_INDICES = Returned records ->
  df (do_refresh float_repr env st).1 = records.
Proof.
  intros Hkey Hrecords. unfold do_refresh. rewrite Hkey, Hrecords. cbv zeta.
  destruct (dropna _ _); reflexivity.
Qed.

Lemma returned_sensor_index float_repr w api_key sensor_index r :
  get_sensor_data float_repr w api_key sensor_index = Returned r ->
  r !! "sensor_index" = Some (VInt sensor_index).
Proof.
  intros Hres.
  destruct (requests_get w (request_url sensor_index) api_key)
    as [sensor|code|] eqn:Hresp.
  - rewrite (fetched_classify float_repr _ _ _ _ Hresp) in Hres.
    destruct (classify _ _ _ _) as [[s c]|e]; [|discriminate].
    cbn in Hres. injection Hres as <-.
    do 2 (rewrite lookup_insert_ne by done). apply lookup_insert_eq.
  - rewrite (failed_http float_repr _ _ _ _ Hresp) in Hres. by injection Hres as <-.
  - rewrite (failed_request float_repr _ _ _ Hresp) in Hres. by injection Hres as <-.
Qed.

Lemma SENSOR_INDICES_NoDup : NoDup SENSOR_INDICES.
Proof. apply (bool_decide_unpack (NoDup SENSOR_INDICES)). vm_compute. exact I. Qed.

(** X5: the table frame of a refresh has one row per configured sensor, in
    the configured order: its sensor_index column is [SENSOR_INDICES], so
    it has 26 rows and no index twice. *)
Theorem refresh_rows_in_order float_repr env st api_key records :
  secrets env !! "textkey" = Some api_key ->
  comprehension
    (fun idx => get_sensor_data float_repr (world_at env idx) api_key idx)
    SENSOR_INDICES = Returned records ->
  let st' := (do_refresh float_repr env st).1 in
  (fun r => r !! "sensor_index") <$> df st' = (fun idx => Some (VInt idx)) <$> SENSOR_INDICES /\
  length (df st') = 26%nat /\
  NoDup ((fun r => r !! "sensor_index") <$> df st').
Proof.
  intros Hkey Hrecords st'. unfold st'.
  rewrite (do_refresh_df _ _ _ _ _ Hkey Hrecords).
  assert (Hcol : (fun r => r !! "sensor_index") <$> records =
                 (fun idx => Some (VInt idx)) <$> SENSOR_INDICES).
  { apply comprehension_Forall2 in Hrecords.
    induction Hrecords as [|idx r l rs Hr _ IH]; [done|].
    cbn. rewrite IH. f_equal. by eapply returned_sensor_index. }
  split; [done|]. split.
  - rewrite <- (length_fmap (fun r => r !! "sensor_index")), Hcol, length_fmap. reflexivity.
  - rewrite Hcol. apply NoDup_fmap_2; [|apply SENSOR_INDICES_NoDup].
    by intros i j [= ->].
Qed.

Lemma refresh_rows_in_order_witness :
  (fun r => r !! "sensor_index") <$> df demo_state =
    (fun idx => Some (VInt idx)) <$> SENSOR_INDICES.
Proof.
  exact (proj1 (refresh_rows_in_order plain_repr demo_environment initial_session_state
                  "key" (demo_records plain_repr) eq_refl
                  (@eq_refl (result (list record)) (Returned (demo_records plain_repr)) <:
                     comprehension
                       (fun idx =>
                          get_sensor_data plain_repr (world_at demo_environment idx) "key" idx)
                       SENSOR_INDICES = Returned (demo_records plain_repr)))).
Defined.

(** ** The camera *)

Lemma display_table_frame now_ts st :
  df_map (display_table now_ts st).1 = df_map st /\
  view_state (display_table now_ts st).1 = view_state st.
Proof.
  unfold display_table. destruct (df_empty (df st)); [done|].
  destruct (_ ≫= comprehension (minutes_since now_ts)); [|done].
  cbv zeta. cbn [df]. destruct (_ ≫= comprehension status_priority_cell); done.
Qed.

(** X6: nothing in the script stores a camera other than the default one: in
    every state that can arise the camera is [DEFAULT_VIEW], and
    [reset_view] leaves such a state exactly as it is. *)
Theorem reset_view_changes_nothing float_repr st :
  reachable float_repr st ->
  view_state st = DEFAULT_VIEW /\ reset_view st = (st, Returned tt).
Proof.
  intros Hst.
  assert (Hview : view_state st = DEFAULT_VIEW).
  { induction Hst as [|env st Hst IH|st Hst IH|now_ts st Hst IH].
    - reflexivity.
    - destruct (do_refresh_outcomes float_repr env st)
        as [[e ->]|(k & rs & _ & _ & [->|(_ & c & _ & _ & ->)])]; done.
    - reflexivity.
    - by rewrite (proj2 (display_table_frame now_ts st)). }
  split; [done|]. unfold reset_view. rewrite <- Hview. by destruct st.
Qed.

Lemma reset_view_changes_nothing_witness :
  reset_view demo_state = (demo_state, Returned tt).
Proof.
  exact (proj2 (reset_view_changes_nothing plain_repr demo_state
                  (reach_refresh plain_repr demo_environment initial_session_state
                     (reach_initial plain_repr)))).
Defined.

(** X7: the two callbacks do not interfere: in either order they leave the
    same state and the refresh has the same outcome; resetting twice is
    resetting once. *)
Theorem reset_refresh_commute float_repr env st :
  (do_refresh float_repr env (reset_view st).1).1 =
    (reset_view (do_refresh float_repr env st).1).1 /\
  (do_refresh float_repr env (reset_view st).1).2 = (do_refresh float_repr env st).2 /\
  reset_view (reset_view st).1 = reset_view st.
Proof.
  unfold do_refresh, reset_view. cbn [fst snd df df_map view_state].
  destruct (secrets env !! "textkey") as [api_key|]; [|done].
  destruct (comprehension _ SENSOR_INDICES) as [records|e]; [|done].
  cbv zeta. destruct (dropna _ _); done.
Qed.

(** ** Drawing the table *)

Lemma comprehension_returned_fmap {A B : Type} (f : A -> result B) (g : A -> B)
    (l : list A) :
  Forall (fun x => f x = Returned (g x)) l ->
  comprehension f l = Returned (g <$> l).
Proof.
  induction 1 as [|x l Hx _ IH]; [done|].
  cbn [comprehension]. by rewrite Hx, IH.
Qed.

Lemma df_empty_false (df : DataFrame) :
  df_empty df = false <-> exists r k, r ∈ df /\ is_Some (r !! k).
Proof.
  unfold df_empty. rewrite orb_false_iff, !bool_decide_eq_false. split.
  - intros [_ Hcols].
    destruct (set_choose_L (columns df)) as [k Hk]; [done|].
    apply elem_of_columns in Hk as (r & Hr & Hk). eauto.
  - intros (r & k & Hr & Hk). split.
    + intros ->. by apply elem_of_nil in Hr.
    + intros Hnone. assert (Hin : k ∈ columns df) by (apply elem_of_columns; eauto).
      rewrite Hnone in Hin. by apply not_elem_of_empty in Hin.
Qed.

(** What [display_table] computes when nothing raises. *)
Lemma display_table_eval now_ts st :
  df_empty (df st) = false ->
  "last_seen" ∈ columns (df st) ->
  Forall (fun r => exists v, minutes_since now_ts (r !! "last_seen") = Returned v) (df st) ->
  Forall (fun r => exists s, r !! "status" = Some (VStr s)) (df st) ->
  display_table now_ts st =
    ({| df := with_derived_cells now_ts <$> df st;
        df_map := df_map st; view_state := view_state st |},
     Returned (Some (delete "__priority" <$>
                       sort_values "__priority" (with_derived_cells now_ts <$> df st)))).
Proof.
  intros Hempty Hseen Hmins Hstatus.
  apply df_empty_false in Hempty as (r0 & _ & Hr0 & _).
  unfold display_table.
  rewrite (proj2 (df_empty_false (df st))).
  2:{ rewrite Forall_forall in Hstatus. destruct (Hstatus _ Hr0) as [s Hs].
      exists r0, "status". split; [done|]. by rewrite Hs. }
  unfold column at 1. rewrite decide_True by done. cbn [mbind result_bind].
  rewrite (comprehension_returned_fmap _
             (fun x => match minutes_since now_ts x with
                       | Returned v => v
                       | Raised _ => VNone
                       end)).
  2:{ apply Forall_fmap. eapply Forall_impl; [exact Hmins|].
      intros r [v Hv]. cbn. by rewrite Hv. }
  cbv zeta. cbn [df df_map view_state]. rewrite set_column_apply.
  set (df1 := (fun r => <["minutes_since_seen" := _]> r) <$> df st).
  assert (Hstatus1 : Forall (fun r => exists s, r !! "status" = Some (VStr s)) df1).
  { apply Forall_fmap. eapply Forall_impl; [exact Hstatus|].
    intros r [s Hs]. exists s. cbn. by rewrite lookup_insert_ne. }
  unfold column at 1. rewrite decide_True.
  2:{ apply elem_of_columns. eexists. split.
      - apply list_elem_of_fmap. exists r0. split; [reflexivity|done].
      - rewrite lookup_insert_ne by done.
        rewrite Forall_forall in Hstatus. destruct (Hstatus _ Hr0) as [s ->]. eauto. }
  cbn [mbind result_bind].
  rewrite (comprehension_returned_fmap _
             (fun x => match x with
                       | Some (VStr s) => VInt (status_priority s)
                       | _ => VNone
                       end)).
  2:{ apply Forall_fmap. eapply Forall_impl; [exact Hstatus1|].
      intros r [s Hs]. cbn. by rewrite Hs. }
  rewrite set_column_apply.
  assert (Hdf : (fun r => <["__priority" :=
                    match r !! "status" with
                    | Some (VStr s) => VInt (status_priority s)
                    | _ => VNone
                    end]> r) <$> df1 = with_derived_cells now_ts <$> df st).
  { unfold df1. rewrite <- list_fmap_compose. reflexivity. }
  rewrite Hdf. unfold drop_column. rewrite decide_True; [reflexivity|].
  apply elem_of_columns. exists (with_derived_cells now_ts r0). split.
  - rewrite sort_values_perm. apply list_elem_of_fmap. by exists r0.
  - unfold with_derived_cells. rewrite lookup_insert_eq. eauto.
Qed.

(** The rows that [get_sensor_data] returns can be drawn: the status is a
    string, and a last_seen cell that is there is a number. *)
Lemma returned_row_drawable float_repr w api_key sensor_index r now_ts :
  get_sensor_data float_repr w api_key sensor_index = Returned r ->
  (exists s, r !! "status" = Some (VStr s)) /\
  (exists v, minutes_since now_ts (r !! "last_seen") = Returned v).
Proof.
  intros Hres.
  destruct (requests_get w (request_url sensor_index) api_key)
    as [sensor|code|] eqn:Hresp.
  - rewrite (fetched_classify float_repr _ _ _ _ Hresp) in Hres.
    destruct (classify _ _ _ _) as [[s c]|e] eqn:Hcl; [|discriminate].
    cbn in Hres. injection Hres as <-. split.
    + exists s. rewrite lookup_insert_ne by done. apply lookup_insert_eq.
    + rewrite !lookup_insert_ne by done.
      unfold classify, float_sub, dict_get in Hcl. unfold minutes_since, float_sub.
      destruct (default ∅ sensor !! "last_seen") as [v|]; [|cbn; eauto].
      destruct (as_number v) as [q|] eqn:Hv; [|discriminate].
      destruct v; try discriminate; cbn; rewrite ?Hv; cbn; eauto.
  - rewrite (failed_http float_repr _ _ _ _ Hresp) in Hres. injection Hres as <-.
    split; [|cbn; eauto]. eexists. reflexivity.
  - rewrite (failed_request float_repr _ _ _ Hresp) in Hres. injection Hres as <-.
    split; [|cbn; eauto]. eexists. reflexivity.
Qed.

(** X9: after a refresh in which some record has a last_seen cell, the table
    is drawn: [display_table] returns a table with the 26 rows, whatever the
    clock reads. *)
Theorem table_drawn_after_refresh float_repr env st api_key records now_ts :
  secrets env !! "textkey" = Some api_key ->
  comprehension
    (fun idx => get_sensor_data float_repr (world_at env idx) api_key idx)
    SENSOR_INDICES = Returned records ->
  (exists r, r ∈ records /\ is_Some (r !! "last_seen")) ->
  exists table,
    (display_table now_ts (do_refresh float_repr env st).1).2 = Returned (Some table) /\
    length table = 26%nat /\
    table ≡ₚ delete "__priority" <$> (with_derived_cells now_ts <$> records).
Proof.
  intros Hkey Hrecords (r0 & Hr0 & Hseen0).
  pose proof (do_refresh_df float_repr env st _ _ Hkey Hrecords) as Hdf.
  pose proof (comprehension_Forall2 _ _ _ Hrecords) as Hall.
  assert (Hdraw : Forall (fun r =>
            (exists s, r !! "status" = Some (VStr s)) /\
            (exists v, minutes_since now_ts (r !! "last_seen") = Returned v)) records).
  { clear -Hall. induction Hall as [|idx r l rs Hr _ IH]; constructor; [|done].
    by eapply returned_row_drawable. }
  rewrite display_table_eval; rewrite ?Hdf.
  - eexists. split; [reflexivity|]. split.
    + rewrite !length_fmap, sort_values_perm, length_fmap.
      apply Forall2_length in Hall. rewrite <- Hall. reflexivity.
    + by rewrite sort_values_perm.
  - apply df_empty_false. eauto.
  - apply elem_of_columns. eauto.
  - eapply Forall_impl; [exact Hdraw|]. by intros r [_ ?].
  - eapply Forall_impl; [exact Hdraw|]. by intros r [? _].
Qed.

Lemma table_drawn_after_refresh_witness :
  exists table,
    (display_table 1700000200 demo_state).2 = Returned (Some table) /\
    length table = 26%nat.
Proof.
  destruct (table_drawn_after_refresh plain_repr demo_environment initial_session_state
              "key" (demo_records plain_repr) 1700000200 eq_refl
              (@eq_refl (result (list record)) (Returned (demo_records plain_repr)) <:
                 comprehension
                   (fun idx =>
                      get_sensor_data plain_repr (world_at demo_environment idx) "key" idx)
                   SENSOR_INDICES = Returned (demo_records plain_repr)))
    as (table & Htable & Hlen & _).
  - exists demo_row. split.
    + apply (list_elem_of_lookup_2 _ 1%nat).
      vm_cast_no_check (@eq_refl (option record) (Some demo_row)).
    + exists (VInt 1700000000).
      vm_cast_no_check (@eq_refl (option value) (Some (VInt 1700000000))).
  - exists table. split; [exact Htable|exact Hlen].
Defined.

(** ** A refresh in which every fetch fails, in general *)




(** ** Script runs that draw a table *)

Lemma comprehension_each_returns {A B : Type} (f : A -> result B) (l : list A)
    (ys : list B) :
  comprehension f l = Returned ys -> Forall (fun x => exists y, f x = Returned y) l.
Proof.
  intros Hc. apply comprehension_Forall2 in Hc.
  induction Hc; constructor; eauto.
Qed.

(** A run of [display_table] that shows a table met the four conditions
    of [display_table_eval]. *)
Lemma display_table_shown_inv now_ts st st' table :
  display_table now_ts st = (st', Returned (Some table)) ->
  df_empty (df st) = false /\
  "last_seen" ∈ columns (df st) /\
  Forall (fun r => exists v, minutes_since now_ts (r !! "last_seen") = Returned v) (df st) /\
  Forall (fun r => exists s, r !! "status" = Some (VStr s)) (df st).
Proof.
  intros Hshown.
  destruct (display_table_shown _ _ _ _ Hshown) as (minutes & Hstr & _ & _).
  cbv zeta in Hstr. revert Hshown. unfold display_table.
  destruct (df_empty (df st)); [intros [= _ ?]; done|].
  unfold column at 1.
  destruct (decide ("last_seen" ∈ columns (df st))) as [Hcol|_]; [|intros [= _ ?]; done].
  cbn [mbind result_bind].
  destruct (comprehension (minutes_since now_ts) _) as [mins|e1] eqn:Hmins;
    [|intros [= _ ?]; done].
  intros _. split; [done|]. split; [done|]. split.
  - apply comprehension_each_returns in Hmins.
    apply (proj1 (Forall_fmap _ _ _)) in Hmins. exact Hmins.
  - apply (proj1 (Forall_fmap _ _ _)) in Hstr. eapply Forall_impl; [exact Hstr|].
    intros r [s Hs]. exists s. cbn in Hs. by rewrite lookup_insert_ne in Hs.
Qed.

Lemma with_derived_cells_lookup now_ts (r : record) (k : string) :
  k ≠ "minutes_since_seen" -> k ≠ "__priority" ->
  with_derived_cells now_ts r !! k = r !! k.
Proof. intros H1 H2. unfold with_derived_cells. by rewrite !lookup_insert_ne. Qed.

Lemma with_derived_cells_idemp now_ts (r : record) :
  with_derived_cells now_ts (with_derived_cells now_ts r) = with_derived_cells now_ts r.
Proof.
  assert (Hm : minutes_cell now_ts (with_derived_cells now_ts r) = minutes_cell now_ts r).
  { unfold minutes_cell. by rewrite with_derived_cells_lookup. }
  assert (Hp : forall v v' (r' : record), r' !! "status" = r !! "status" ->
            priority_cell (<["minutes_since_seen" := v]> r') =
            priority_cell (<["minutes_since_seen" := v']> r)).
  { intros v v' r' Hs. unfold priority_cell. by rewrite !lookup_insert_ne, Hs. }
  unfold with_derived_cells at 1. rewrite Hm.
  rewrite (Hp _ (minutes_cell now_ts r) (with_derived_cells now_ts r))
    by (by apply with_derived_cells_lookup).
  unfold with_derived_cells. apply map_eq. intros k.
  destruct (decide (k = "__priority")) as [->|Hk1].
  - by rewrite !lookup_insert_eq.
  - rewrite (lookup_insert_ne _ "__priority" k) by done.
    destruct (decide (k = "minutes_since_seen")) as [->|Hk2].
    + rewrite lookup_insert_eq. rewrite lookup_insert_ne by done.
      by rewrite lookup_insert_eq.
    + by rewrite !lookup_insert_ne.
Qed.

(** X10: running the table part again at the same clock reading changes
    nothing: the derived columns are overwritten with the same cells, and
    the same table is shown. *)
Theorem display_table_idempotent now_ts st st' table :
  display_table now_ts st = (st', Returned (Some table)) ->
  display_table now_ts st' = (st', Returned (Some table)).
Proof.
  intros Hshown.
  destruct (display_table_shown_inv _ _ _ _ Hshown) as (Hempty & Hcol & Hmins & Hstatus).
  rewrite (display_table_eval _ _ Hempty Hcol Hmins Hstatus) in Hshown.
  injection Hshown as <- <-.
  apply df_empty_false in Hempty as (r0 & _ & Hr0 & _).
  rewrite display_table_eval; cbn [df df_map view_state].
  - rewrite <- list_fmap_compose.
    rewrite (list_fmap_ext (with_derived_cells now_ts ∘ with_derived_cells now_ts)
               (with_derived_cells now_ts) (df st)); [reflexivity|].
    intros _ r _. apply with_derived_cells_idemp.
  - apply df_empty_false. exists (with_derived_cells now_ts r0), "__priority".
    split; [apply list_elem_of_fmap; by exists r0|].
    unfold with_derived_cells. rewrite lookup_insert_eq. eauto.
  - apply elem_of_columns in Hcol as (r & Hr & Hseen). apply elem_of_columns.
    exists (with_derived_cells now_ts r). split; [apply list_elem_of_fmap; by exists r|].
    by rewrite with_derived_cells_lookup.
  - apply Forall_fmap. eapply Forall_impl; [exact Hmins|].
    intros r Hv. cbn. by rewrite with_derived_cells_lookup.
  - apply Forall_fmap. eapply Forall_impl; [exact Hstatus|].
    intros r Hs. cbn. by rewrite with_derived_cells_lookup.
Qed.

Lemma display_table_idempotent_witness :
  display_table 1700000200 (display_table 1700000200 demo_state).1 =
    ((display_table 1700000200 demo_state).1,
     Returned (Some (shown_table (display_table 1700000200 demo_state).2))).
Proof.
  apply (display_table_idempotent 1700000200 demo_state).
  exact (@eq_refl (session_state * result (option DataFrame))
           (display_table 1700000200 demo_state) <:
           display_table 1700000200 demo_state =
             ((display_table 1700000200 demo_state).1,
              Returned (Some (shown_table (display_table 1700000200 demo_state).2)))).
Defined.

(** What a script run that draws a table has computed. *)
Lemma run_script_drawn now_ts st st' p headers table :
  run_script now_ts st = (st', Returned p) ->
  page_table p = Some (headers, table) ->
  exists r0, r0 ∈ df st /\
    Forall (fun r => exists s, r !! "status" = Some (VStr s)) (df st) /\
    st' = {| df := with_derived_cells now_ts <$> df st;
             df_map := df_map st; view_state := view_state st |} /\
    table = delete "__priority" <$>
              sort_values "__priority" (with_derived_cells now_ts <$> df st) /\
    headers = order table /\
    page_raw p = df st' /\
    page_map p = display_map table st'.
Proof.
  unfold run_script.
  destruct (display_table now_ts st) as [st1 [[sorted|]|e]] eqn:Hshown;
    [|intros [= <- <-]; discriminate|discriminate].
  intros [= <- <-]. cbn [page_table page_raw page_map fmap option_fmap option_map].
  intros [= <- <-].
  destruct (display_table_shown_inv _ _ _ _ Hshown) as (Hempty & Hcol & Hmins & Hstatus).
  rewrite (display_table_eval _ _ Hempty Hcol Hmins Hstatus) in Hshown.
  injection Hshown as <- <-.
  apply df_empty_false in Hempty as (r0 & _ & Hr0 & _).
  exists r0. by repeat split.
Qed.

(** X11: the raw-data panel shows the frame of the session state after the
    table part has written to it: every raw record carries the two derived
    cells, ["__priority"] being the priority of its status label, while the
    table rows have no ["__priority"] cell. *)
Theorem raw_data_has_derived_cells now_ts st st' p headers table :
  run_script now_ts st = (st', Returned p) ->
  page_table p = Some (headers, table) ->
  page_raw p = with_derived_cells now_ts <$> df st /\
  length (page_raw p) = length table /\
  Forall (fun r => exists s,
            status_of r = Some s /\
            r !! "__priority" = Some (VInt (status_priority s)) /\
            is_Some (r !! "minutes_since_seen")) (page_raw p) /\
  Forall (fun r => r !! "__priority" = None /\ is_Some (r !! "minutes_since_seen")) table.
Proof.
  intros Hrun Htable.
  destruct (run_script_drawn _ _ _ _ _ _ Hrun Htable)
    as (r0 & _ & Hstatus & -> & -> & _ & -> & _).
  cbn [df]. split; [done|]. split; [|split].
  - by rewrite !length_fmap, sort_values_perm, length_fmap.
  - apply Forall_fmap. eapply Forall_impl; [exact Hstatus|].
    intros r [s Hs]. exists s. cbn. unfold status_of, with_derived_cells, priority_cell.
    rewrite !lookup_insert_eq. rewrite !lookup_insert_ne by done.
    rewrite lookup_insert_eq, Hs. eauto.
  - apply Forall_fmap. rewrite sort_values_perm. apply Forall_fmap, Forall_forall.
    intros r _. cbn. rewrite lookup_delete_eq. rewrite lookup_delete_ne by done.
    unfold with_derived_cells. rewrite lookup_insert_ne by done.
    rewrite lookup_insert_eq. eauto.
Qed.

Lemma raw_data_has_derived_cells_witness :
  page_raw (shown_page (run_script 1700000200 demo_state).2) =
    with_derived_cells 1700000200 <$> df demo_state.
Proof.
  refine (proj1 (raw_data_has_derived_cells 1700000200 demo_state
                   (run_script 1700000200 demo_state).1
                   (shown_page (run_script 1700000200 demo_state).2)
                   (order (shown_table (display_table 1700000200 demo_state).2))
                   (shown_table (display_table 1700000200 demo_state).2) _ _)).
  - vm_cast_no_check
      (@eq_refl (session_state * result page) (run_script 1700000200 demo_state)).
  - vm_cast_no_check
      (@eq_refl (option (list string * DataFrame))
         (page_table (shown_page (run_script 1700000200 demo_state).2))).
Defined.

(** ** The columns of the table *)

Lemma order_elem (df : DataFrame) (h : string) :
  h ∈ order df <-> h ∈ COLUMN_ORDER /\ exists k, k ∈ columns df /\ rename_label k = h.
Proof.
  unfold order. rewrite list_elem_of_filter, elem_of_map. split.
  - intros [(k & -> & Hk) Hin]. split; [done|]. by exists k.
  - intros [Hin (k & Hk & <-)]. split; [|done]. by exists k.
Qed.

(** X12: the table shows a selection of the thirteen headers of
    [COLUMN_ORDER], in that order.  Whenever a table is drawn its first
    column is Status and it has the Mins Ago column; the colour, the
    priority and the hardware field never get a column. *)
Theorem table_columns now_ts st st' p headers table :
  run_script now_ts st = (st', Returned p) ->
  page_table p = Some (headers, table) ->
  headers `sublist_of` COLUMN_ORDER /\
  (exists rest, headers = "Status" :: rest) /\
  "Mins Ago" ∈ headers /\
  (forall k, k ∈ ["color"; "__priority"; "hardware"] -> rename_label k ∉ headers) /\
  (forall h, h ∈ headers <->
     h ∈ COLUMN_ORDER /\ exists k, k ∈ columns table /\ rename_label k = h).
Proof.
  intros Hrun Htable.
  destruct (run_script_drawn _ _ _ _ _ _ Hrun Htable)
    as (r0 & Hr0 & Hstatus & _ & Ht & -> & _ & _).
  assert (Hrow : delete "__priority" (with_derived_cells now_ts r0) ∈ table).
  { rewrite Ht. apply list_elem_of_fmap. eexists. split; [reflexivity|].
    rewrite sort_values_perm. apply list_elem_of_fmap. by exists r0. }
  assert (Hcol : forall k, k ≠ "__priority" ->
            is_Some (with_derived_cells now_ts r0 !! k) -> k ∈ columns table).
  { intros k Hk Hsome. apply elem_of_columns. eexists. split; [exact Hrow|].
    by rewrite lookup_delete_ne. }
  assert (Hstatus_col : "status" ∈ columns table).
  { apply Hcol; [done|]. rewrite with_derived_cells_lookup by done.
    rewrite Forall_forall in Hstatus. destruct (Hstatus _ Hr0) as [s ->]. eauto. }
  assert (Hmins_col : "minutes_since_seen" ∈ columns table).
  { apply Hcol; [done|]. unfold with_derived_cells.
    rewrite lookup_insert_ne by done. rewrite lookup_insert_eq. eauto. }
  split; [apply sublist_filter|]. split; [|split; [|split]].
  - eexists. unfold order, COLUMN_ORDER. rewrite filter_cons_True; [reflexivity|].
    apply elem_of_map. by exists "status".
  - apply order_elem. split.
    + apply (bool_decide_unpack _). vm_compute. exact I.
    + by exists "minutes_since_seen".
  - intros k Hk Hin. apply order_elem in Hin as [Hin _].
    repeat (apply elem_of_cons in Hk as [->|Hk];
            [revert Hin; apply (bool_decide_unpack _); vm_compute; exact I|]).
    by apply elem_of_nil in Hk.
  - apply order_elem.
Qed.

Lemma table_columns_witness :
  exists rest,
    order (shown_table (display_table 1700000200 demo_state).2) = "Status" :: rest.
Proof.
  refine (proj1 (proj2 (table_columns 1700000200 demo_state
                          (run_script 1700000200 demo_state).1
                          (shown_page (run_script 1700000200 demo_state).2)
                          (order (shown_table (display_table 1700000200 demo_state).2))
                          (shown_table (display_table 1700000200 demo_state).2) _ _))).
  - vm_cast_no_check
      (@eq_refl (session_state * result page) (run_script 1700000200 demo_state)).
  - vm_cast_no_check
      (@eq_refl (option (list string * DataFrame))
         (page_table (shown_page (run_script 1700000200 demo_state).2))).
Defined.

(** ** The map *)

Lemma display_table_none now_ts st st1 :
  display_table now_ts st = (st1, Returned None) ->
  df_empty (df st) = true /\ st1 = st.
Proof.
  unfold display_table. destruct (df_empty (df st)); [by intros [= <-]|].
  destruct (_ ≫= comprehension (minutes_since now_ts)); [|intros [= _ ?]; done].
  cbv zeta. cbn [df]. destruct (_ ≫= comprehension status_priority_cell);
    [|intros [= _ ?]; done].
  cbn [mbind result_bind]. destruct (drop_column _ _); intros [= _ ?]; done.
Qed.

(** What the map part shows in a script run that gets to it: the map
    frame with the stored camera when the map frame has data; the warning
    when it has none but the table frame has; nothing before the first
    data. *)
Lemma run_script_map now_ts st st1 p :
  run_script now_ts st = (st1, Returned p) ->
  (df_empty (df_map st) = false -> page_map p = MapShown (df_map st) (view_state st)) /\
  (df_empty (df_map st) = true -> df_empty (df st) = false ->
   page_map p = NoLocationWarning) /\
  (df_empty (df_map st) = true -> df_empty (df st) = true ->
   page_map p = NoMap /\ page_table p = None).
Proof.
  intros Hrun.
  destruct (page_table p) as [[headers table]|] eqn:Htable.
  - destruct (run_script_drawn _ _ _ _ _ _ Hrun Htable)
      as (r0 & Hr0 & Hstatus & -> & Ht & _ & _ & ->).
    unfold display_map. cbn [df_map view_state].
    assert (Hdf : df_empty (df st) = false).
    { apply df_empty_false. exists r0, "status". split; [done|].
      rewrite Forall_forall in Hstatus. destruct (Hstatus _ Hr0) as [s ->]. eauto. }
    assert (Hlocal : df_empty table = false).
    { apply df_empty_false.
      exists (delete "__priority" (with_derived_cells now_ts r0)), "status". split.
      - rewrite Ht. apply list_elem_of_fmap. eexists. split; [reflexivity|].
        rewrite sort_values_perm. apply list_elem_of_fmap. by exists r0.
      - rewrite lookup_delete_ne by done. rewrite with_derived_cells_lookup by done.
        rewrite Forall_forall in Hstatus. destruct (Hstatus _ Hr0) as [s ->]. eauto. }
    split; [by intros ->|]. split; [intros ->; by rewrite Hlocal|].
    intros _ Hempty. congruence.
  - revert Hrun Htable. unfold run_script.
    destruct (display_table now_ts st) as [st2 [[sorted|]|e]] eqn:Hshown;
      [intros [= <- <-]; discriminate| |discriminate].
    intros [= <- <-] _. apply display_table_none in Hshown as [Hempty ->].
    unfold display_map. cbn [page_map page_table fmap option_fmap option_map].
    split; [by intros ->|]. split; [congruence|]. intros -> _. by rewrite Hempty.
Qed.

Lemma refreshed_frame_not_empty float_repr env api_key records :
  comprehension
    (fun idx => get_sensor_data float_repr (world_at env idx) api_key idx)
    SENSOR_INDICES = Returned records ->
  df_empty records = false.
Proof.
  intros Hrecords. apply comprehension_Forall2 in Hrecords.
  unfold SENSOR_INDICES in Hrecords.
  apply Forall2_cons_inv_l in Hrecords as (r & rs & Hr & _ & ->).
  apply df_empty_false. exists r, "sensor_index". split; [left|].
  rewrite (returned_sensor_index _ _ _ _ _ Hr). eauto.
Qed.

(** X13: after a refresh that returned, the page shows the map of the records
    with both coordinates, under the camera the session had, when there is
    such a record, and the no-location warning when there is none. *)
Theorem map_after_refresh float_repr env st now_ts st2 p :
  (do_refresh float_repr env st).2 = Returned tt ->
  run_script now_ts (do_refresh float_repr env st).1 = (st2, Returned p) ->
  let records := df (do_refresh float_repr env st).1 in
  ((exists r, r ∈ records /\ has_coordinates r = true) ->
   page_map p = MapShown (filter (fun r => has_coordinates r) records) (view_state st)) /\
  (Forall (fun r => has_coordinates r = false) records ->
   page_map p = NoLocationWarning).
Proof.
  intros Hret Hrun records.
  destruct (do_refresh_outcomes float_repr env st)
    as [[e Href]|(k & rs & _ & Hrs & [Href|(_ & c & _ & _ & Href)])];
    rewrite Href in Hret; try discriminate.
  unfold records. rewrite Href in Hrun |- *. cbn [fst df] in *.
  destruct (run_script_map _ _ _ _ Hrun) as (Hshown & Hwarn & _).
  cbn [df df_map view_state] in *. split.
  - intros (r & Hr & Hhas). apply Hshown. apply df_empty_false.
    exists r, "latitude". split.
    + apply list_elem_of_filter. split; [by apply Is_true_true|done].
    + apply notna_is_Some. unfold has_coordinates in Hhas.
      by apply andb_true_iff in Hhas as [? _].
  - intros Hnone. apply Hwarn; [|by eapply refreshed_frame_not_empty].
    assert (Hnil : filter (fun r => has_coordinates r) rs = []).
    { clear -Hnone. induction Hnone as [|r rs Hr _ IH]; [done|].
      rewrite filter_cons_False; [done|]. rewrite Hr. intros []. }
    by rewrite Hnil.
Qed.

Lemma map_after_refresh_witness :
  page_map (shown_page (run_script 1700000200 demo_state).2) =
    MapShown (filter (fun r => has_coordinates r) (df demo_state)) DEFAULT_VIEW.
Proof.
  refine (proj1 (map_after_refresh plain_repr demo_environment initial_session_state
                   1700000200 (run_script 1700000200 demo_state).1
                   (shown_page (run_script 1700000200 demo_state).2) _ _) _).
  - vm_cast_no_check (@eq_refl (result unit) (Returned tt)).
  - vm_cast_no_check
      (@eq_refl (session_state * result page) (run_script 1700000200 demo_state)).
  - exists (default ∅ (demo_records plain_repr !! 0%nat)). split.
    + apply (list_elem_of_lookup_2 _ 0%nat).
      vm_cast_no_check
        (@eq_refl (option record) (Some (default ∅ (demo_records plain_repr !! 0%nat)))).
    + vm_cast_no_check (@eq_refl bool true).
Defined.

Lemma run_script_no_table now_ts st st1 p :
  run_script now_ts st = (st1, Returned p) ->
  page_table p = None ->
  df_empty (df st) = true.
Proof.
  unfold run_script.
  destruct (display_table now_ts st) as [st2 [[sorted|]|e]] eqn:Hshown;
    [intros [= <- <-]; discriminate| |discriminate].
  intros _ _. by apply display_table_none in Hshown as [? _].
Qed.

(** X14: when no record of a refresh has one of the coordinate columns, the
    refresh raises [KeyError] after it has replaced the table frame.  The
    map frame is the one of the refresh before: a script run from that
    state lists the new records and draws the old markers. *)
Theorem stale_map_after_refresh float_repr env st api_key records now_ts st2 p :
  secrets env !! "textkey" = Some api_key ->
  comprehension
    (fun idx => get_sensor_data float_repr (world_at env idx) api_key idx)
    SENSOR_INDICES = Returned records ->
  (exists c, c ∈ ["latitude"; "longitude"] /\ c ∉ columns records) ->
  df_empty (df_map st) = false ->
  run_script now_ts (do_refresh float_repr env st).1 = (st2, Returned p) ->
  (exists c, do_refresh float_repr env st =
     ({| df := records; df_map := df_map st; view_state := view_state st |},
      Raised (KeyError c))) /\
  page_raw p = with_derived_cells now_ts <$> records /\
  page_map p = MapShown (df_map st) (view_state st).
Proof.
  intros Hkey Hrecords (c & Hc & Hno) Hmap Hrun.
  assert (Href : exists c', do_refresh float_repr env st =
     ({| df := records; df_map := df_map st; view_state := view_state st |},
      Raised (KeyError c'))).
  { unfold do_refresh. rewrite Hkey, Hrecords. cbv zeta.
    destruct (dropna _ _) as [m|e] eqn:Hd.
    - exfalso. unfold dropna in Hd.
      destruct (filter _ _) as [|c' l] eqn:Hf; [|discriminate].
      assert (Hin : c ∈ filter (λ c, c ∉ columns (pd_DataFrame records))
                             ["latitude"; "longitude"])
        by (by apply list_elem_of_filter).
      rewrite Hf in Hin. by apply elem_of_nil in Hin.
    - apply dropna_raises in Hd as (c' & -> & _). by exists c'. }
  split; [done|]. destruct Href as [c' Href]. rewrite Href in Hrun. cbn [fst] in Hrun.
  split.
  - destruct (page_table p) as [[headers table]|] eqn:Htable.
    + by destruct (run_script_drawn _ _ _ _ _ _ Hrun Htable)
        as (_ & _ & _ & -> & _ & _ & -> & _).
    + apply (run_script_no_table _ _ _ _ Hrun) in Htable. cbn [df] in Htable.
      rewrite (refreshed_frame_not_empty _ _ _ _ Hrecords) in Htable. discriminate.
  - by apply (run_script_map _ _ _ _ Hrun).
Qed.

Lemma stale_map_after_refresh_witness :
  let st := (do_refresh plain_repr inland_environment demo_state).1 in
  df st = inland_records plain_repr /\
  page_map (shown_page (run_script 1700000500 st).2) =
    MapShown (df_map demo_state) (view_state demo_state).
Proof.
  cbv zeta.
  destruct (stale_map_after_refresh plain_repr inland_environment demo_state "key"
              (inland_records plain_repr) 1700000500
              (run_script 1700000500
                 (do_refresh plain_repr inland_environment demo_state).1).1
              (shown_page
                 (run_script 1700000500
                    (do_refresh plain_repr inland_environment demo_state).1).2)
              eq_refl)
    as ([c Href] & _ & Hmap).
  - vm_cast_no_check (@eq_refl (result (list record)) (Returned (inland_records plain_repr))).
  - exists "latitude". split; [left|].
    apply (bool_decide_unpack _). vm_cast_no_check I.
  - vm_cast_no_check (@eq_refl bool false).
  - vm_cast_no_check
      (@eq_refl (session_state * result page)
         (run_script 1700000500 (do_refresh plain_repr inland_environment demo_state).1)).
  - split; [by rewrite Href|exact Hmap].
Defined.

(** ** Request URLs *)

Lemma to_int_not_nil (z : Z) : Z.to_int z ≠ Decimal.Pos Decimal.Nil /\ Z.to_int z ≠ Decimal.Neg Decimal.Nil.
Proof.
  destruct z as [|p|p]; cbn; split; try discriminate;
    intros [= H]; by apply DecimalPos.Unsigned.to_uint_nonnil in H.
Qed.

Lemma parse_int_str_int (z : Z) : parse_int (str_int z) = Some z.
Proof.
  unfold parse_int, str_int. destruct (to_int_not_nil z) as [Hpos Hneg].
  rewrite NilZero.isi by done. cbn. by rewrite DecimalZ.of_to.
Qed.

Lemma string_length_append (s t : string) :
  String.length (s +:+ t) = (String.length s + String.length t)%nat.
Proof.
  induction s as [|a s IH]; [done|].
  change (S (String.length (s +:+ t)) = S (String.length s + String.length t)).
  by rewrite IH.
Qed.

Lemma append_inj_r (s1 s2 t : string) : s1 +:+ t = s2 +:+ t -> s1 = s2.
Proof.
  intros Heq.
  assert (Hlen : String.length s1 = String.length s2).
  { apply (f_equal String.length) in Heq. rewrite !string_length_append in Heq. lia. }
  revert s2 Heq Hlen. induction s1 as [|a s1 IH]; intros [|b s2] Heq Hlen;
    try discriminate; [done|].
  change (String a (s1 +:+ t) = String b (s2 +:+ t)) in Heq.
  injection Heq as -> Heq. f_equal. apply IH; [done|].
  cbn in Hlen. lia.
Qed.

(** X15: the decimal string of an index reads back as the index, and the URL
    of a request determines the sensor: no two sensors share a URL. *)
Theorem request_url_inj (i j : Z) :
  parse_int (str_int i) = Some i /\
  (request_url i = request_url j -> i = j).
Proof.
  split; [apply parse_int_str_int|].
  unfold request_url. intros Heq.
  apply (inj (String.append API_BASE_URL)) in Heq.
  apply append_inj_r in Heq.
  apply (f_equal parse_int) in Heq. rewrite !parse_int_str_int in Heq. congruence.
Qed.

Lemma request_url_inj_witness : 270898 = 270898.
Proof.
  exact (proj2 (request_url_inj 270898 270898) eq_refl).
Defined.

(** ** The rows of the two frames *)

Lemma returned_row_labelled float_repr w api_key sensor_index r :
  sensor_index ∈ SENSOR_INDICES ->
  get_sensor_data float_repr w api_key sensor_index = Returned r ->
  labelled_row r.
Proof.
  intros Hidx Hres. exists sensor_index.
  pose proof (returned_sensor_index _ _ _ _ _ Hres) as Hsi.
  destruct (requests_get w (request_url sensor_index) api_key)
    as [sensor|code|] eqn:Hresp.
  - rewrite (fetched_classify float_repr _ _ _ _ Hresp) in Hres.
    destruct (classify _ _ _ _) as [[s c]|e] eqn:Hcl; [|discriminate].
    cbn in Hres. injection Hres as <-. exists s, c.
    split; [done|]. split; [done|].
    rewrite lookup_insert_ne by done. rewrite !lookup_insert_eq.
    split; [done|]. split; [done|]. by eapply classify_color.
  - rewrite (failed_http float_repr _ _ _ _ Hresp) in Hres. injection Hres as <-.
    eexists _, _. split; [done|]. split; [done|].
    split; [reflexivity|]. split; [reflexivity|].
    destruct (code =? 403)%Z; [done|]. by destruct (code =? 404)%Z.
  - rewrite (failed_request float_repr _ _ _ Hresp) in Hres. injection Hres as <-.
    eexists _, _. by repeat split.
Qed.

Lemma refreshed_rows_labelled float_repr env api_key records :
  comprehension
    (fun idx => get_sensor_data float_repr (world_at env idx) api_key idx)
    SENSOR_INDICES = Returned records ->
  Forall labelled_row records.
Proof.
  intros Hrecords. apply comprehension_Forall2 in Hrecords.
  assert (Hgen : forall l rs,
            Forall (fun idx => idx ∈ SENSOR_INDICES) l ->
            Forall2 (fun idx r =>
               get_sensor_data float_repr (world_at env idx) api_key idx = Returned r)
              l rs ->
            Forall labelled_row rs).
  { intros l rs Hsub Hl. induction Hl as [|idx r l rs Hr _ IH]; [constructor|].
    apply Forall_cons in Hsub as [Hidx Hsub]. constructor; [|by apply IH].
    by eapply returned_row_labelled. }
  apply (Hgen SENSOR_INDICES); [by apply Forall_forall|done].
Qed.

(** On every path [display_table] leaves the rows of the table frame in
    place and changes at most their two derived cells. *)
Lemma display_table_cells now_ts st :
  Forall2 (fun r r' => forall k, k ≠ "minutes_since_seen" -> k ≠ "__priority" ->
                                 r' !! k = r !! k)
          (df st) (df (display_table now_ts st).1).
Proof.
  assert (Hrefl : forall l : DataFrame,
            Forall2 (fun r r' : record =>
                       forall k, k ≠ "minutes_since_seen" -> k ≠ "__priority" ->
                                 r' !! k = r !! k) l l).
  { intros l. by apply Forall_Forall2_diag, Forall_forall. }
  unfold display_table. destruct (df_empty (df st)); [apply Hrefl|].
  unfold column at 1.
  destruct (decide ("last_seen" ∈ columns (df st))) as [_|_]; [|apply Hrefl].
  cbn [mbind result_bind].
  destruct (comprehension (minutes_since now_ts) _) as [mins|e1] eqn:Hmins; [|apply Hrefl].
  apply (comprehension_fmap _
           (fun x => match minutes_since now_ts x with
                     | Returned v => v
                     | Raised _ => VNone
                     end) (fun _ => True)) in Hmins as [_ ->];
    [|by intros x y ->].
  cbv zeta. cbn [df df_map view_state]. rewrite set_column_apply.
  set (df1 := (fun r => <["minutes_since_seen" := _]> r) <$> df st).
  assert (H1 : Forall2 (fun r r' : record =>
                       forall k, k ≠ "minutes_since_seen" -> k ≠ "__priority" ->
                                 r' !! k = r !! k) (df st) df1).
  { apply Forall2_fmap_r, Forall_Forall2_diag, Forall_forall.
    intros r _ k Hk _. by rewrite lookup_insert_ne. }
  unfold column at 1.
  destruct (decide ("status" ∈ columns df1)) as [_|_]; [|exact H1].
  cbn [mbind result_bind].
  destruct (comprehension status_priority_cell _) as [prios|e2] eqn:Hprios; [|exact H1].
  apply (comprehension_fmap _
           (fun x => match x with
                     | Some (VStr s) => VInt (status_priority s)
                     | _ => VNone
                     end)
           (fun _ => True)) in Hprios as [_ ->].
  2:{ intros [[| | | |s|]|] y [= <-]. done. }
  rewrite set_column_apply. cbn [fst df].
  unfold df1. rewrite <- list_fmap_compose.
  apply Forall2_fmap_r, Forall_Forall2_diag, Forall_forall.
  intros r _ k Hk1 Hk2. cbn. by rewrite !lookup_insert_ne.
Qed.

(** X16: in every state that can arise, each row of the table frame and of the
    map frame carries the index of a configured sensor, a status label of
    one of the three categories and the colour of that category, a list of
    four numbers; the rows of the map frame have both coordinates.  So
    [status_priority] never takes its fallback value 3 on a row of the
    table. *)
Theorem frames_hold_labelled_rows float_repr st :
  reachable float_repr st ->
  Forall labelled_row (df st) /\
  Forall (fun r => labelled_row r /\ has_coordinates r = true) (df_map st) /\
  (forall r s, r ∈ df st -> status_of r = Some s -> 0 <= status_priority s <= 2) /\
  (forall r c, r ∈ (df st ++ df_map st)%list -> color_of r = Some c -> length c = 4%nat).
Proof.
  intros Hst.
  assert (Hinv : Forall labelled_row (df st) /\
                 Forall (fun r => labelled_row r /\ has_coordinates r = true) (df_map st)).
  { induction Hst as [|env st Hst [IHdf IHmap]|st Hst IH|now_ts st Hst [IHdf IHmap]].
    - split; constructor.
    - destruct (do_refresh_outcomes float_repr env st)
        as [[e ->]|(k & rs & _ & Hrs & [->|(_ & c & _ & _ & ->)])]; cbn [fst df df_map].
      + done.
      + pose proof (refreshed_rows_labelled _ _ _ _ Hrs) as Hlab. split; [done|].
        apply Forall_forall. intros r Hr.
        apply list_elem_of_filter in Hr as [Hhas Hr]. split.
        * rewrite Forall_forall in Hlab. by apply Hlab.
        * by apply Is_true_true.
      + split; [|done]. by eapply refreshed_rows_labelled.
    - done.
    - split; [|by rewrite (proj1 (display_table_frame now_ts st))].
      pose proof (display_table_cells now_ts st) as Hcells.
      clear -IHdf Hcells.
      induction Hcells as [|r r' l l' Hr _ IH]; [constructor|].
      apply Forall_cons in IHdf as [(idx & s & c & H1 & H2 & H3 & H4 & H5) IHdf].
      constructor; [|by apply IH].
      exists idx, s, c. rewrite !Hr by done. done. }
  destruct Hinv as [Hdf Hmap]. split; [done|]. split; [done|]. split.
  - intros r s Hr Hs. rewrite Forall_forall in Hdf.
    destruct (Hdf r Hr) as (idx & s' & c & _ & _ & Hs' & _ & Hcol).
    unfold status_of in Hs. rewrite Hs' in Hs. injection Hs as ->.
    pose proof (status_priority_range s) as Hrange.
    destruct (decide (status_priority s = 3)) as [H3|H3]; [|lia].
    unfold color_for_status, health_of_status in Hcol. rewrite H3 in Hcol. discriminate.
  - intros r c Hr Hc.
    assert (Hlab : labelled_row r).
    { apply elem_of_app in Hr as [Hr|Hr].
      - rewrite Forall_forall in Hdf. by apply Hdf.
      - rewrite Forall_forall in Hmap. by apply Hmap. }
    destruct Hlab as (idx & s & c' & _ & _ & _ & Hc' & Hcol).
    unfold color_of in Hc. rewrite Hc' in Hc. injection Hc as ->.
    unfold color_for_status in Hcol.
    destruct (health_of_status s) as [[| |]|]; cbn in Hcol; try discriminate;
      vm_compute in Hcol; by injection Hcol as <-.
Qed.

Lemma frames_hold_labelled_rows_witness :
  Forall labelled_row (df demo_state).
Proof.
  exact (proj1 (frames_hold_labelled_rows plain_repr demo_state
                  (reach_refresh plain_repr demo_environment initial_session_state
                     (reach_initial plain_repr)))).
Defined.
